(** * grpc_greeter_helloworld: the protocol multiplexer and the interceptor chain

    A shallow embedding of [main.go] and of the generated service code in
    [grpc/greeter/helloworld/hello_world_grpc.pb.go].

    Go values are modelled as follows.
    - [string] is a Rocq [string] (a sequence of bytes);
    - [error] is [option Err], with [None] for [nil];
    - a pointer result that may be [nil] is an [option];
    - [http.Header] is a finite map from canonical keys to value lists;
    - code with effects (logging, spans, the response writer, the handlers
      behind an interface) runs in a state monad over [World], whose
      [events] field records what happened, in order; a computation ends
      normally or by a panic. *)

From Stdlib Require Import ZArith String Ascii List Bool Lia.
From stdpp Require Import base strings list gmap.

Local Open Scope Z_scope.
Local Open Scope string_scope.
Local Open Scope list_scope.

(** ** Package [strings] *)

Module strings.

  (** [strings.HasPrefix(s, prefix)]. *)
Fixpoint HasPrefix (s prefix : string) : bool :=
    match prefix, s with
    | EmptyString, _ => true
    | String _ _, EmptyString => false
    | String b prefix', String a s' =>
        if Ascii.eqb a b then HasPrefix s' prefix' else false
    end.

  (** [strings.Contains(s, substr)]: [substr] occurs in [s] at some offset. *)
Fixpoint Contains (s substr : string) : bool :=
    if HasPrefix s substr then true
    else match s with
         | EmptyString => false
         | String _ s' => Contains s' substr
         end.

(** [s[n:]] for [n <= len(s)]. *)
Fixpoint drop (n : nat) (s : string) : string :=
  match n, s with
  | O, _ => s
  | S n', String _ s' => drop n' s'
  | S _, EmptyString => EmptyString
  end.

(** [strings.HasSuffix(s, suffix)]:
    [len(s) >= len(suffix) && s[len(s)-len(suffix):] == suffix]. *)
Definition HasSuffix (s suffix : string) : bool :=
  (Nat.leb (String.length suffix) (String.length s)
   && String.eqb (drop (String.length s - String.length suffix) s) suffix)%bool.

(** [strings.TrimPrefix(s, prefix)]. *)
Definition TrimPrefix (s prefix : string) : string :=
  if HasPrefix s prefix then drop (String.length prefix) s else s.

End strings.

(** ** Package [net/textproto] and [net/http]: headers *)

Module textproto.

Definition isLower (c : ascii) : bool :=
    let n := nat_of_ascii c in (Nat.leb 97 n && Nat.leb n 122)%bool.
Definition isUpper (c : ascii) : bool :=
    let n := nat_of_ascii c in (Nat.leb 65 n && Nat.leb n 90)%bool.
Definition isDigit (c : ascii) : bool :=
    let n := nat_of_ascii c in (Nat.leb 48 n && Nat.leb n 57)%bool.

  (** [validHeaderFieldByte]: the token characters of RFC 7230. *)
Definition validHeaderFieldByte (c : ascii) : bool :=
    (isLower c || isUpper c || isDigit c
     || existsb (Ascii.eqb c)
          ["!"; "#"; "$"; "%"; "&"; "'"; "*"; "+"; "-"; "."; "^"; "_"; "`"; "|"; "~"]%char)%bool.

Fixpoint allValid (s : string) : bool :=
    match s with
    | EmptyString => true
    | String c s' => (validHeaderFieldByte c && allValid s')%bool
    end.

  (** The second loop of [canonicalMIMEHeaderKey]: the first letter and
      every letter after a hyphen in upper case, the others in lower case. *)
Fixpoint canon (upper : bool) (s : string) : string :=
    match s with
    | EmptyString => EmptyString
    | String c s' =>
        let c' :=
          if (upper && isLower c)%bool then ascii_of_nat (nat_of_ascii c - 32)
          else if (negb upper && isUpper c)%bool then ascii_of_nat (nat_of_ascii c + 32)
          else c in
        String c' (canon (Ascii.eqb c' "-"%char) s')
    end.

  (** [textproto.CanonicalMIMEHeaderKey]: a key with a byte that is not a
      token character is returned unchanged. *)
Definition CanonicalMIMEHeaderKey (s : string) : string :=
    if allValid s then canon true s else s.

End textproto.

Module http.

  (** [type Header map[string][]string]. *)
Definition Header : Type := gmap string (list string).

  (** [Header.Get]: the first value of the canonical key, or [""]. *)
Definition Get (h : gmap string (list string)) (key : string) : string :=
    match h !! textproto.CanonicalMIMEHeaderKey key with
    | Some (v :: _) => v
    | _ => ""
    end.

  (** [Header.Set]: replaces the values of the canonical key. *)
Definition Set_ (h : gmap string (list string)) (key value : string)
    : gmap string (list string) :=
    <[textproto.CanonicalMIMEHeaderKey key := [value]]> h.

End http.

(** ** Errors and status codes *)

Module codes.

  (** [google.golang.org/grpc/codes]. *)
Inductive Code : Set :=
  | OK | Canceled | Unknown | InvalidArgument | DeadlineExceeded | NotFound
  | AlreadyExists | PermissionDenied | ResourceExhausted | FailedPrecondition
  | Aborted | OutOfRange | Unimplemented | Internal | Unavailable | DataLoss
  | Unauthenticated.

#[global] Instance Code_eq_dec : EqDecision Code.
Proof. solve_decision. Defined.

End codes.

(** The error values that reach this program.  Only [StatusError] has a
    [GRPCStatus] method; [PlainError] stands for every other error type
    (for instance the error a generated [ValidateAll] builds). *)
Inductive Err : Set :=
| StatusError (c : codes.Code) (msg : string)
| ContextCanceled
| ContextDeadlineExceeded
| ErrSpanContextNotFound
| ErrSpanContextCorrupted
| PlainError (msg : string).

#[global] Instance Err_eq_dec : EqDecision Err.
Proof. solve_decision. Defined.

(** Go's [error]: [None] is [nil]. *)
Definition error : Set := option Err.

Module status.

  (** [status.Errorf(c, format)]; the formats used here have no verbs. *)
Definition Errorf (c : codes.Code) (format : string) : Err := StatusError c format.

  (** [status.Code(err)]: [OK] for [nil], the status's code for an error
      with a [GRPCStatus] method, [Unknown] otherwise. *)
Definition Code (err : error) : codes.Code :=
    match err with
    | None => codes.OK
    | Some (StatusError c _) => c
    | Some _ => codes.Unknown
    end.

  (** The code a unary call ends with on the wire: the server keeps a
      status error and converts any other one with
      [status.FromContextError]. *)
Definition wireCode (err : Err) : codes.Code :=
    match err with
    | StatusError c _ => c
    | ContextCanceled => codes.Canceled
    | ContextDeadlineExceeded => codes.DeadlineExceeded
    | _ => codes.Unknown
    end.

End status.

(** ** Spans, contexts and the tracer interface *)

Record TraceID : Set := { High : Z; Low : Z }.

(** [opentracing.SpanContext] is an interface; [jaeger.SpanContext] is the
    implementation [main] installs, and the only one [grpcHandlerFunc]
    looks into. *)
Inductive SpanContext : Set :=
| JaegerSpanContext (traceID : TraceID) (spanID : Z)
| ForeignSpanContext (repr : string).

Inductive StartSpanOption : Set :=
| RPCServerOption (client : option SpanContext)
| RPCClientOption (parent : option SpanContext)
| Tag (Key Value : string).

Record Span : Set := {
  span_id : nat;
  span_operation : string;
  span_options : list StartSpanOption;
  span_Context : SpanContext
}.

(** [context.Context] as far as this program reads it: the span attached
    by [opentracing.ContextWithSpan] and the gRPC metadata of the call. *)
Record Context : Type := {
  ctx_span : option Span;
  ctx_md : gmap string (list string)
}.

Definition Background : Context := {| ctx_span := None; ctx_md := ∅ |}.

Definition ContextWithSpan (ctx : Context) (sp : Span) : Context :=
  {| ctx_span := Some sp; ctx_md := ctx_md ctx |}.

(** [opentracing.Tracer].  [Extract] returns the pair Go returns;
    [newSpanContext] is the context the tracer gives to the span it
    starts (identified by a fresh number). *)
Record Tracer : Type := {
  Extract : gmap string (list string) -> option SpanContext * error;
  Inject : SpanContext -> gmap string (list string) -> gmap string (list string);
  newSpanContext : nat -> string -> list StartSpanOption -> SpanContext
}.

(** ** The world and its monad *)

Inductive Level : Set := InfoLevel | ErrorLevel.

Inductive Backend : Set := NativeRPC | Gateway.

Inductive Event : Type :=
| EvLog (l : Level) (format : string)
| EvStartSpan (sp : Span)
| EvSetTag (id : nat) (key : string)
| EvFinishSpan (id : nat)
| EvServeHTTP (b : Backend)
| EvInvoke.

Record World : Type := {
  events : list Event;
  next_span : nat;
  (** the header map of the [http.ResponseWriter] of the request *)
  resp_header : gmap string (list string)
}.

Definition World0 : World := {| events := []; next_span := 0; resp_header := ∅ |}.

Inductive Outcome (A : Type) : Type :=
| Return (a : A)
| Panicked (v : string).
Arguments Return {A} a.
Arguments Panicked {A} v.

Definition M (A : Type) : Type := World -> Outcome A * World.

Definition ret {A} (a : A) : M A := fun w => (Return a, w).

Definition bind {A B} (m : M A) (k : A -> M B) : M B :=
  fun w => match m w with
           | (Return a, w1) => k a w1
           | (Panicked v, w1) => (Panicked v, w1)
           end.

Notation "x <- m ;; k" := (bind m (fun x => k))
  (at level 100, m at next level, right associativity).
Notation "m ;;; k" := (bind m (fun _ => k))
  (at level 100, right associativity).

(** Go's [defer]: [deferred] runs when [body] is over, also when it
    panicked; the panic then goes on. *)
Definition defer {A} (deferred : M unit) (body : M A) : M A :=
  fun w => match body w with
           | (Return a, w1) =>
               match deferred w1 with
               | (Return _, w2) => (Return a, w2)
               | (Panicked v, w2) => (Panicked v, w2)
               end
           | (Panicked v, w1) => (Panicked v, snd (deferred w1))
           end.

Definition emit (e : Event) : M unit :=
  fun w => (Return tt, {| events := events w ++ [e];
                          next_span := next_span w;
                          resp_header := resp_header w |}).

(** [w.Header().Set(key, value)]. *)
Definition setHeader (key value : string) : M unit :=
  fun w => (Return tt, {| events := events w;
                          next_span := next_span w;
                          resp_header := http.Set_ (resp_header w) key value |}).

(** [tracer.StartSpan(operationName, opts...)]. *)
Definition StartSpan (t : Tracer) (operationName : string)
    (opts : list StartSpanOption) : M Span :=
  fun w =>
    let sp := {| span_id := next_span w;
                 span_operation := operationName;
                 span_options := opts;
                 span_Context := newSpanContext t (next_span w) operationName opts |} in
    (Return sp, {| events := events w ++ [EvStartSpan sp];
                   next_span := S (next_span w);
                   resp_header := resp_header w |}).

(** [span.Finish()]. *)
Definition Finish (sp : Span) : M unit := emit (EvFinishSpan (span_id sp)).

(** Package [pkg/zaplog]: a log line is an event that keeps the level and
    the format; the arguments of the format are not rendered. *)
Module zaplog.
Definition Info (msg : string) : M unit := emit (EvLog InfoLevel msg).
Definition Infof (format : string) : M unit := emit (EvLog InfoLevel format).
Definition Errorf (format : string) : M unit := emit (EvLog ErrorLevel format).
End zaplog.

(** What an event list says. *)
Definition isStart (e : Event) : bool := match e with EvStartSpan _ => true | _ => false end.
Definition isFinish (e : Event) : bool := match e with EvFinishSpan _ => true | _ => false end.
Definition isFinishOf (id : nat) (e : Event) : bool :=
  match e with EvFinishSpan j => Nat.eqb id j | _ => false end.
Definition isServe (e : Event) : bool := match e with EvServeHTTP _ => true | _ => false end.
Definition isServeOf (b : Backend) (e : Event) : bool :=
  match e, b with
  | EvServeHTTP NativeRPC, NativeRPC | EvServeHTTP Gateway, Gateway => true
  | _, _ => false
  end.
Definition isInvoke (e : Event) : bool := match e with EvInvoke => true | _ => false end.
Definition isLog (format : string) (e : Event) : bool :=
  match e with EvLog _ f => String.eqb f format | _ => false end.

Definition count (p : Event -> bool) (l : list Event) : nat :=
  length (filter (fun e => p e = true) l).
Arguments count : simpl never.

(** ** Package [helloworldpb]: messages and the generated service code *)

Module structpb.
  (** [structpb.Value]; a number is kept as the bits of its float64. *)
#[warnings="-register-all"] Inductive Value : Set :=
  | NullValue
  | NumberValue (bits : Z)
  | StringValue (s : string)
  | BoolValue (b : bool)
  | StructValue (fields : list (string * Value))
  | ListValue (values : list Value).
End structpb.

Record HelloRequest : Set := { Name : string }.

Record HelloReply : Set := {
  Message : string;
  Data : option (list structpb.Value);
  Obj : option (list (string * structpb.Value))
}.

Record UserReq : Set := { Id : Z }.

Record UserRes : Set := {
  UserRes_Id : Z;
  UserRes_Name : string;
  UserRes_Email : string;
  UserRes_Phone : string
}.

(** [emptypb.Empty]. *)
Record Empty : Set := mkEmpty { }.

Definition Greeter_SayHello_FullMethodName := "/grpc.greeter.helloworld.Greeter/SayHello".
Definition Greeter_Logout_FullMethodName := "/grpc.greeter.helloworld.Greeter/Logout".
Definition Greeter_GetUser_FullMethodName := "/grpc.greeter.helloworld.Greeter/GetUser".

(** The result of a unary method: a response pointer and an error. *)
Definition Result (Resp : Type) : Type := (option Resp * error)%type.

(** [type GreeterServer interface]. *)
Record GreeterServer : Type := {
  SayHello : Context -> HelloRequest -> M (Result HelloReply);
  Logout : Context -> Empty -> M (Result Empty);
  GetUser : Context -> UserReq -> M (Result UserRes)
}.

(** [type UnimplementedGreeterServer struct{}] and its three methods. *)
Record UnimplementedGreeterServer : Set := mkUnimplementedGreeterServer { }.

Definition UnimplementedGreeterServer_SayHello (_ : UnimplementedGreeterServer)
    (_ : Context) (_ : HelloRequest) : M (Result HelloReply) :=
  ret (None, Some (status.Errorf codes.Unimplemented "method SayHello not implemented")).

Definition UnimplementedGreeterServer_Logout (_ : UnimplementedGreeterServer)
    (_ : Context) (_ : Empty) : M (Result Empty) :=
  ret (None, Some (status.Errorf codes.Unimplemented "method Logout not implemented")).

Definition UnimplementedGreeterServer_GetUser (_ : UnimplementedGreeterServer)
    (_ : Context) (_ : UserReq) : M (Result UserRes) :=
  ret (None, Some (status.Errorf codes.Unimplemented "method GetUser not implemented")).

(** ** Package [grpc]: handlers and interceptors *)

Record UnaryServerInfo : Set := { FullMethod : string }.

Section Unary.

Context {Req Resp : Type}.

  (** [grpc.UnaryHandler] and [grpc.UnaryServerInterceptor]; the request
      and the response are [interface{}] in Go, a type parameter here. *)
Definition UnaryHandler : Type := Context -> Req -> M (Result Resp).

Definition UnaryServerInterceptor : Type :=
Context -> Req -> UnaryServerInfo -> UnaryHandler -> M (Result Resp).

  (** [grpc.UnaryInvoker] and [grpc.UnaryClientInterceptor]. *)
Definition UnaryInvoker : Type := Context -> string -> Req -> M (Result Resp).

Definition UnaryClientInterceptor : Type :=
Context -> string -> Req -> UnaryInvoker -> M (Result Resp).

  (** [getChainUnaryHandler]: the handler the interceptor before
      [interceptors] is given. *)
Fixpoint getChainUnaryHandler (interceptors : list UnaryServerInterceptor)
      (info : UnaryServerInfo) (finalHandler : UnaryHandler) : UnaryHandler :=
    match interceptors with
    | [] => finalHandler
    | i :: rest =>
        fun ctx req => i ctx req info (getChainUnaryHandler rest info finalHandler)
    end.

  (** [grpc.ChainUnaryInterceptor]: the first interceptor is the
      outermost one. *)
Definition ChainUnaryInterceptor (interceptors : list UnaryServerInterceptor)
    : UnaryServerInterceptor :=
    fun ctx req info handler => getChainUnaryHandler interceptors info handler ctx req.

End Unary.

Arguments UnaryHandler : clear implicits.
Arguments UnaryServerInterceptor : clear implicits.
Arguments UnaryInvoker : clear implicits.
Arguments UnaryClientInterceptor : clear implicits.

(** The generated method handlers.  [dec] fills the fresh message it is
    given; [interceptor] is [None] for a server without interceptors. *)
Definition _Greeter_SayHello_Handler (srv : GreeterServer) (ctx : Context)
    (dec : HelloRequest -> HelloRequest * error)
    (interceptor : option (UnaryServerInterceptor HelloRequest HelloReply))
  : M (Result HelloReply) :=
  let '(in_, err) := dec {| Name := "" |} in
  match err with
  | Some e => ret (None, Some e)
  | None =>
      match interceptor with
      | None => SayHello srv ctx in_
      | Some interceptor =>
          let info := {| FullMethod := Greeter_SayHello_FullMethodName |} in
          let handler := fun ctx req => SayHello srv ctx req in
          interceptor ctx in_ info handler
      end
  end.

Definition _Greeter_Logout_Handler (srv : GreeterServer) (ctx : Context)
    (dec : Empty -> Empty * error)
    (interceptor : option (UnaryServerInterceptor Empty Empty))
  : M (Result Empty) :=
  let '(in_, err) := dec mkEmpty in
  match err with
  | Some e => ret (None, Some e)
  | None =>
      match interceptor with
      | None => Logout srv ctx in_
      | Some interceptor =>
          let info := {| FullMethod := Greeter_Logout_FullMethodName |} in
          let handler := fun ctx req => Logout srv ctx req in
          interceptor ctx in_ info handler
      end
  end.

Definition _Greeter_GetUser_Handler (srv : GreeterServer) (ctx : Context)
    (dec : UserReq -> UserReq * error)
    (interceptor : option (UnaryServerInterceptor UserReq UserRes))
  : M (Result UserRes) :=
  let '(in_, err) := dec {| Id := 0 |} in
  match err with
  | Some e => ret (None, Some e)
  | None =>
      match interceptor with
      | None => GetUser srv ctx in_
      | Some interceptor =>
          let info := {| FullMethod := Greeter_GetUser_FullMethodName |} in
          let handler := fun ctx req => GetUser srv ctx req in
          interceptor ctx in_ info handler
      end
  end.

(** ** Package [main] *)

(** [type server struct { helloworldpb.UnimplementedGreeterServer }]. *)
Record server : Set := { embedded : UnimplementedGreeterServer }.

(** [type Validator interface { ValidateAll() error }]: what a value that
    has the method answers. *)
Record Validator : Set := { ValidateAll : error }.

Definition NewServer : server := {| embedded := mkUnimplementedGreeterServer |}.

Definition server_SayHello (s : server) (ctx : Context) (in_ : HelloRequest)
  : M (Result HelloReply) :=
  zaplog.Infof "register name is %d" ;;;
  ret (Some {| Message := Name in_ +:+ " world"; Data := None; Obj := None |}, None).

Definition server_Logout (s : server) (_ : Context) (_ : Empty) : M (Result Empty) :=
  ret (Some mkEmpty, None).

(** The method set of [*server]: its own [SayHello] and [Logout], and
    [GetUser] promoted from the embedded struct. *)
Definition server_GreeterServer (s : server) : GreeterServer := {|
  SayHello := server_SayHello s;
  Logout := server_Logout s;
  GetUser := UnimplementedGreeterServer_GetUser (embedded s)
|}.

Definition grpcGatewayTag : StartSpanOption := Tag "component" "grpc-gateway".

Section Validation.

Context {Req Resp : Type}.

  (** The type assertion [req.(Validator)]: [Some] when the dynamic type
      of the request has the method [ValidateAll]. *)
Variable asValidator : Req -> option Validator.

Definition ServerValidationUnaryInterceptor (ctx : Context) (req : Req)
      (info : UnaryServerInfo) (handler : UnaryHandler Req Resp) : M (Result Resp) :=
    zaplog.Infof "%+v" ;;;
    match asValidator req with
    | Some r =>
        match ValidateAll r with
        | Some err =>
            zaplog.Errorf "req validate error %v" ;;;
            ret (None, Some err)
        | None => handler ctx req
        end
    | None => handler ctx req
    end.

End Validation.

(** [*http.Request] as far as the front door reads it. *)
Record Request : Type := {
  ProtoMajor : Z;
  Header : gmap string (list string);
  r_Context : Context
}.

(** [r.WithContext(ctx)]. *)
Definition WithContext (r : Request) (ctx : Context) : Request :=
  {| ProtoMajor := ProtoMajor r; Header := Header r; r_Context := ctx |}.

(** [http.Handler]: [ServeHTTP(w, r)], with [w] kept in the world. *)
Definition Handler : Type := Request -> M unit.

(** [jaeger.TraceContextHeaderName]. *)
Definition TraceContextHeaderName : string := "uber-trace-id".

(** [h2c.NewHandler(h, &http2.Server{})] lets cleartext HTTP/2 reach [h];
    every request it serves is served by [h]. *)
Definition h2c_NewHandler (h : Handler) : Handler := h.

Section Program.

(** [opentracing.GlobalTracer()], set once by [main]. *)
Variable tracer : Tracer.

(** [fmt.Sprint] of a [jaeger.TraceID] (its [String] method). *)
Variable TraceID_String : TraceID -> string.

Definition grpcHandlerFunc (grpcServer otherHandler : Handler) : Handler :=
  h2c_NewHandler (fun r =>
    if (ProtoMajor r =? 2)%Z
       && strings.Contains (http.Get (Header r) "Content-Type") "application/grpc"
    then
      zaplog.Info "match grpc call" ;;;
      grpcServer r
    else
      zaplog.Info "match http web call" ;;;
      let '(parentSpanContext, err) := Extract tracer (Header r) in
      if bool_decide (err = None) || bool_decide (err = Some ErrSpanContextNotFound)
      then
        serverSpan <- StartSpan tracer "ServeHTTP"
                        [RPCServerOption parentSpanContext; grpcGatewayTag] ;;
        let r := WithContext r (ContextWithSpan (r_Context r) serverSpan) in
        match span_Context serverSpan with
        | JaegerSpanContext traceID _ =>
            setHeader TraceContextHeaderName (TraceID_String traceID)
        | _ => ret tt
        end ;;;
        defer (Finish serverSpan) (otherHandler r)
      else
        otherHandler r).

Section Chain.

Context {Req Resp : Type}.
Variable asValidator : Req -> option Validator.

(** Modelled from the spec: the trace stage of the server,
    [grpc_opentracing.UnaryServerInterceptor], is third-party code and not
    part of the sources.  It extracts a parent context from the inbound
    metadata, starts the span (a root span when no parent was found),
    attaches it to the context given to the inner stages, and finishes it
    on every exit, tagged as failed when the call ends with an error. *)
Definition grpc_opentracing_UnaryServerInterceptor : UnaryServerInterceptor Req Resp :=
  fun ctx req info handler =>
    let parent := match Extract tracer (ctx_md ctx) with
                  | (Some sc, None) => Some sc
                  | _ => None
                  end in
    serverSpan <- StartSpan tracer (FullMethod info)
                    [RPCServerOption parent; Tag "component" "gRPC"] ;;
    defer (Finish serverSpan)
      (res <- handler (ContextWithSpan ctx serverSpan) req ;;
       match snd res with
       | Some _ => emit (EvSetTag (span_id serverSpan) "error")
       | None => ret tt
       end ;;;
       ret res).

(** Modelled from the spec: the trace stage of the gateway's loopback
    client, [grpc_opentracing.UnaryClientInterceptor], third-party code as
    well.  It starts a span under the span of the calling context, if any,
    injects it into the outbound metadata and finishes it when the call
    is over. *)
Definition grpc_opentracing_UnaryClientInterceptor : UnaryClientInterceptor Req Resp :=
  fun ctx method req invoker =>
    clientSpan <- StartSpan tracer method
                    [RPCClientOption (option_map span_Context (ctx_span ctx));
                     Tag "component" "gRPC"] ;;
    let ctx' := {| ctx_span := Some clientSpan;
                   ctx_md := Inject tracer (span_Context clientSpan) (ctx_md ctx) |} in
    defer (Finish clientSpan)
      (res <- invoker ctx' method req ;;
       match snd res with
       | Some _ => emit (EvSetTag (span_id clientSpan) "error")
       | None => ret tt
       end ;;;
       ret res).

(** The interceptors [main] gives to [grpc.NewServer], in its order. *)
Definition serverInterceptors : list (UnaryServerInterceptor Req Resp) :=
  [grpc_opentracing_UnaryServerInterceptor;
   ServerValidationUnaryInterceptor asValidator].

Definition serverInterceptor : UnaryServerInterceptor Req Resp :=
  ChainUnaryInterceptor serverInterceptors.

(** The interceptor of the dial options [main] gives to the gateway:
    [grpc.WithUnaryInterceptor] of the client's trace stage alone. *)
Definition dialInterceptor : UnaryClientInterceptor Req Resp :=
  grpc_opentracing_UnaryClientInterceptor.

(** A unary call that reaches the server for [method], whose body is
    [handler]: the server runs its interceptor around the body. *)
Definition serveUnary (method : string) (handler : UnaryHandler Req Resp)
  : UnaryHandler Req Resp :=
  fun ctx req => serverInterceptor ctx req {| FullMethod := method |} handler.

(** Modelled from the spec: the gateway translator (generated code that is
    not part of the sources) invokes the method through a client dialled
    to the server's own address, so the call runs the client's trace
    stage and then arrives at the server as a native call that carries
    the metadata of the client. *)
Definition gatewayInvoke (method : string) (handler : UnaryHandler Req Resp)
  : UnaryHandler Req Resp :=
  fun ctx req =>
    dialInterceptor ctx method req
      (fun ctx' method' req' =>
         serveUnary method' handler {| ctx_span := None; ctx_md := ctx_md ctx' |} req').

End Chain.

End Program.

(** A handler that records each of its invocations before it runs. *)
Definition observed {Req Resp : Type} (h : UnaryHandler Req Resp) : UnaryHandler Req Resp :=
  fun ctx req => emit EvInvoke ;;; h ctx req.

(** A backend that records that it served the request. *)
Definition backend (b : Backend) : Handler := fun _ => emit (EvServeHTTP b).

(** The tracer of the examples: it finds a parent in a well-formed
    [Uber-Trace-Id] header, nothing when the header is absent, and fails
    on any other value; its spans carry Jaeger contexts. *)
Definition exampleTracer : Tracer := {|
  Extract := fun carrier =>
    match carrier !! "Uber-Trace-Id" with
    | None => (None, Some ErrSpanContextNotFound)
    | Some ["00000000000000aa:1:0:1"] =>
        (Some (JaegerSpanContext {| High := 0; Low := 170 |} 1), None)
    | Some _ => (None, Some ErrSpanContextCorrupted)
    end;
  Inject := fun sc carrier =>
    match sc with
    | JaegerSpanContext _ _ => <["Uber-Trace-Id" := ["00000000000000aa:1:0:1"]]> carrier
    | ForeignSpanContext _ => carrier
    end;
  newSpanContext := fun n _ opts =>
    JaegerSpanContext {| High := 0; Low := 170 |} (Z.of_nat n)
|}.

Definition exampleTraceID_String (t : TraceID) : string :=
  if (Low t =? 170)%Z then "00000000000000aa" else "0000000000000000".

(** A validator of the examples: [ValidateAll] of a [HelloRequest]
    answers a plain error, one without a status, for a name shorter than
    six bytes, and [nil] otherwise. *)
Definition exampleValidator (r : HelloRequest) : option Validator :=
  Some {| ValidateAll :=
            if (String.length (Name r) <? 6)%nat
            then Some (PlainError "invalid HelloRequest.Name: value length must be at least 6 runes")
            else None |}.

(** The dynamic types without the method [ValidateAll]. *)
Definition noValidator {Req : Type} (_ : Req) : option Validator := None.

(** The events by which the stages of the chain show: the start and the
    finish of a span, and the entry log of the validation stage. *)
Definition isStageEvent (e : Event) : bool :=
  isStart e || isFinish e || isLog "%+v" e.

(** A computation is quiet when it only adds events, none of them an
    event of a stage of the chain. *)
Definition quietM {A : Type} (m : M A) : Prop :=
  forall w, exists new,
    events (snd (m w)) = events w ++ new
    /\ Forall (fun e => isStageEvent e = false) new.

Definition quiet {Req Resp : Type} (h : UnaryHandler Req Resp) : Prop :=
  forall ctx req, quietM (h ctx req).

Definition quietHandler (h : Handler) : Prop :=
  forall r, quietM (h r).

(** The world after a log line. *)
Definition logged (l : Level) (msg : string) (w : World) : World :=
  {| events := events w ++ [EvLog l msg];
     next_span := next_span w;
     resp_header := resp_header w |}.

(** The validation stage lets a request through when its dynamic type
    lacks [ValidateAll] or [ValidateAll] answers [nil]. *)
Definition accepted {Req : Type} (asValidator : Req -> option Validator) (req : Req) : Prop :=
  match asValidator req with
  | Some v => ValidateAll v = None
  | None => True
  end.

(** The span the trace stage of the server starts for a call of [method]
    that arrives with context [ctx] in world [w]. *)
Definition serverSpanOf (t : Tracer) (method : string) (ctx : Context) (w : World) : Span :=
  let opts := [RPCServerOption (match Extract t (ctx_md ctx) with
                                | (Some sc, None) => Some sc
                                | _ => None
                                end); Tag "component" "gRPC"] in
  {| span_id := next_span w;
     span_operation := method;
     span_options := opts;
     span_Context := newSpanContext t (next_span w) method opts |}.

(** The requests of the examples: a native call, a JSON call without a
    trace header, and a JSON call whose trace header cannot be parsed. *)
Definition exampleNativeRequest : Request :=
  {| ProtoMajor := 2;
     Header := {[ "Content-Type" := ["application/grpc+proto"] ]};
     r_Context := Background |}.

Definition exampleJSONRequest : Request :=
  {| ProtoMajor := 1;
     Header := {[ "Content-Type" := ["application/json"] ]};
     r_Context := Background |}.

Definition exampleCorruptedRequest : Request :=
  {| ProtoMajor := 1;
     Header := <[ "Uber-Trace-Id" := ["garbage"] ]> {[ "Content-Type" := ["application/json"] ]};
     r_Context := Background |}.

(** ** The client of the service (generated code) *)

(** [grpc.ClientConnInterface]: [Invoke] fills the reply it is given and
    answers an error. *)
Record ClientConnInterface : Type := {
  Invoke : forall Req Resp : Type, Context -> string -> Req -> Resp -> M (Resp * error)
}.

Record greeterClient : Type := { cc : ClientConnInterface }.

Definition NewGreeterClient (cc : ClientConnInterface) : greeterClient := {| cc := cc |}.

Definition greeterClient_SayHello (c : greeterClient) (ctx : Context) (in_ : HelloRequest)
  : M (Result HelloReply) :=
  let out := {| Message := ""; Data := None; Obj := None |} in
  res <- Invoke (cc c) HelloRequest HelloReply ctx Greeter_SayHello_FullMethodName in_ out ;;
  match snd res with
  | Some err => ret (None, Some err)
  | None => ret (Some (fst res), None)
  end.

Definition greeterClient_Logout (c : greeterClient) (ctx : Context) (in_ : Empty)
  : M (Result Empty) :=
  let out := mkEmpty in
  res <- Invoke (cc c) Empty Empty ctx Greeter_Logout_FullMethodName in_ out ;;
  match snd res with
  | Some err => ret (None, Some err)
  | None => ret (Some (fst res), None)
  end.

Definition greeterClient_GetUser (c : greeterClient) (ctx : Context) (in_ : UserReq)
  : M (Result UserRes) :=
  let out := {| UserRes_Id := 0; UserRes_Name := ""; UserRes_Email := "";
                UserRes_Phone := "" |} in
  res <- Invoke (cc c) UserReq UserRes ctx Greeter_GetUser_FullMethodName in_ out ;;
  match snd res with
  | Some err => ret (None, Some err)
  | None => ret (Some (fst res), None)
  end.

(** An interceptor that only runs the handler. *)
Definition passThrough {Req Resp : Type} : UnaryServerInterceptor Req Resp :=
  fun ctx req _ handler => handler ctx req.

(** ** Package [logic]: the user use case *)

Module logic.

Section UseCase.

(** [model.User]; the package [internal/model] is taken as given. *)
Context {User : Type}.

(** [db.UserStore] and [db.Registry], two interfaces of the package
    [internal/repo/db]. *)
Record UserStore : Type := {
  UserStore_GetUser : Context -> Z -> M (option User * error)
}.

Record Registry : Type := {
  Registry_UserStore : Context -> UserStore
}.

Record userUseCaseImpl : Type := { store : Registry }.

Definition NewUserUseCase (store : Registry) : userUseCaseImpl := {| store := store |}.

Definition GetUser (u : userUseCaseImpl) (ctx : Context) (id : Z)
  : M (option User * error) :=
  res <- UserStore_GetUser (Registry_UserStore (store u) ctx) ctx id ;;
  match snd res with
  | Some err =>
      zaplog.Errorf "logic: get user detail err: %v" ;;;
      ret (None, Some err)
  | None => ret (fst res, None)
  end.

End UseCase.

End logic.

(** ** Package [swagger] *)

Module swagger.

(** What [ServeSwaggerFile] does with the response: [http.NotFound] or
    [http.ServeFile] of a file name. *)
Inductive Action : Set :=
| NotFound
| ServeFile (name : string).

Section Serve.

(** [path.Join] of two elements, taken as given. *)
Variable path_Join : string -> string -> string.

(** [ServeSwaggerFile(w, r)] as a function of [r.URL.Path]: the lines it
    logs (by their formats) and what it answers. *)
Definition ServeSwaggerFile (urlPath : string) : list string * Action :=
  if negb (strings.HasSuffix urlPath "swagger.json")
  then (["Not Found: %s"], NotFound)
  else
    let p := strings.TrimPrefix urlPath "/swagger/" in
    let p := path_Join "grpc/greeter/helloworld" p in
    (["Serving swagger-file: %s, %s"], ServeFile p).

End Serve.

End swagger.

(** ** The start of the process: [main] *)

Module process.

(** The steps of [main] that reach outside the program. *)
Inductive Step : Set :=
| FlagParse
| ConfigLoad (path : string)
| ZaplogInit
| ZaplogSync
| LogInfo (msg : string)
| NewTracer
| CloserClose
| SetGlobalTracer
| Listen (address : string)
| NewServer
| RegisterGreeterServer
| NewGatewayMux
| RegisterGreeterHandlerFromEndpoint (endpoint : string)
| MuxHandle (pattern : string)
| Println (msg : string)
| Serve (addr : string)
| Fatalln.

#[global] Instance Step_eq_dec : EqDecision Step.
Proof. solve_decision. Defined.

(** What the outside answers: the parsed flag [-c] or the exit status of
    [flag.Parse], the errors of the start-up calls, and the error
    [Serve] returns, if it ever returns. *)
Record Env : Type := {
  flag_Parse : string + Z;
  config_Load : string -> error;
  NewTracer_error : error;
  Listen_error : error;
  Register_error : error;
  Serve_error : option Err
}.

(** How a run of [main] stands or ends: still running, returned, ended
    by a panic, ended by [os.Exit], or serving for ever. *)
Inductive Status : Set :=
| Running
| Returned
| Panics (e : Err)
| Exits (code : Z)
| Serving.

Record State : Type := {
  steps : list Step;
  (** the deferred calls, the last one first *)
  deferred : list Step
}.

Definition P : Type := State -> Status * State.

Definition do_ (st : Step) : P :=
  fun s => (Running, {| steps := steps s ++ [st]; deferred := deferred s |}).

Definition seq (m k : P) : P :=
  fun s => match m s with
           | (Running, s1) => k s1
           | (status, s1) => (status, s1)
           end.

(** [defer f()]. *)
Definition defer_ (st : Step) : P :=
  fun s => (Running, {| steps := steps s; deferred := st :: deferred s |}).

(** [panic(err)]. *)
Definition panic (e : Err) : P := fun s => (Panics e, s).

(** [log.Fatalln(...)]: it prints and calls [os.Exit(1)]. *)
Definition fatalln : P :=
  fun s => (Exits 1, {| steps := steps s ++ [Fatalln]; deferred := deferred s |}).

Definition exit (code : Z) : P := fun s => (Exits code, s).

Definition block : P := fun s => (Serving, s).

Definition skip : P := fun s => (Running, s).

Notation "m >> k" := (seq m k) (at level 90, right associativity).

Definition main (env : Env) : P :=
  do_ FlagParse >>
  match flag_Parse env with
  | inr code => exit code
  | inl configFilePath =>
      do_ (ConfigLoad configFilePath) >>
      match config_Load env configFilePath with
      | Some err => panic err
      | None =>
          do_ ZaplogInit >>
          defer_ ZaplogSync >>
          do_ (LogInfo "server is running") >>
          do_ NewTracer >>
          match NewTracer_error env with
          | Some err => panic err
          | None =>
              defer_ CloserClose >>
              do_ SetGlobalTracer >>
              do_ (Listen ":8091") >>
              match Listen_error env with
              | Some _ => fatalln
              | None =>
                  do_ NewServer >>
                  do_ RegisterGreeterServer >>
                  do_ NewGatewayMux >>
                  do_ (RegisterGreeterHandlerFromEndpoint "127.0.0.1:8091") >>
                  match Register_error env with
                  | Some _ => fatalln
                  | None =>
                      do_ (MuxHandle "/") >>
                      do_ (Println "Serving on http://127.0.0.1:8091") >>
                      do_ (Serve "127.0.0.1:8091") >>
                      match Serve_error env with
                      | Some _ => fatalln
                      | None => block
                      end
                  end
              end
          end
      end
  end.

(** The run of a function body by the Go runtime: the deferred calls run
    when the body returns or panics, and do not run when the process
    exits or never leaves the body. *)
Definition run (body : P) : Status * list Step :=
  match body {| steps := []; deferred := [] |} with
  | (Running, s) => (Returned, steps s ++ deferred s)
  | (Returned, s) => (Returned, steps s ++ deferred s)
  | (Panics e, s) => (Panics e, steps s ++ deferred s)
  | (Exits code, s) => (Exits code, steps s)
  | (Serving, s) => (Serving, steps s)
  end.

(** An environment in which every start-up call succeeds and [Serve]
    never returns, and one in which the tracer cannot be made. *)
Definition exampleEnv : Env := {|
  flag_Parse := inl "./";
  config_Load := fun _ => None;
  NewTracer_error := None;
  Listen_error := None;
  Register_error := None;
  Serve_error := None
|}.

Definition exampleEnvNoTracer : Env := {|
  flag_Parse := inl "./";
  config_Load := fun _ => None;
  NewTracer_error := Some (PlainError "no service name");
  Listen_error := None;
  Register_error := None;
  Serve_error := None
|}.

End process.

(** The condition of the [if] of [grpcHandlerFunc]. *)
Definition isNative (r : Request) : bool :=
  (ProtoMajor r =? 2)%Z
  && strings.Contains (http.Get (Header r) "Content-Type") "application/grpc".

(** A backend that panics. *)
Definition panicking (v : string) : Handler := fun _ w => (Panicked v, w).

Definition isAnyLog (e : Event) : bool := match e with EvLog _ _ => true | _ => false end.

(** * Properties *)

(** ** Substrings *)

Lemma HasPrefix_spec (s prefix : string) :
  strings.HasPrefix s prefix = true <-> exists q, s = prefix +:+ q.
Proof.
  revert s. induction prefix as [|b prefix IH]; intros s; simpl.
  - split; [intros _; exists s; reflexivity | intros _; destruct s; reflexivity].
  - destruct s as [|a s].
    + split; [discriminate | intros [q Hq]; discriminate].
    + simpl. destruct (Ascii.eqb_spec a b) as [->|Hab].
      * rewrite IH. split; intros [q Hq]; exists q.
        -- simpl. now rewrite Hq.
        -- simpl in Hq. now inversion Hq.
      * split; [discriminate | intros [q Hq]; simpl in Hq; inversion Hq; contradiction].
Qed.

Lemma Contains_unfold (s substr : string) :
  strings.Contains s substr
  = if strings.HasPrefix s substr then true
    else match s with
         | EmptyString => false
         | String _ s' => strings.Contains s' substr
         end.
Proof. destruct s; reflexivity. Qed.

Lemma Contains_spec (s substr : string) :
  strings.Contains s substr = true <-> exists p q, s = p +:+ substr +:+ q.
Proof.
  induction s as [|a s IH]; rewrite Contains_unfold.
  - destruct (strings.HasPrefix "" substr) eqn:Hp.
    + apply HasPrefix_spec in Hp as [q Hq].
      split; [intros _; exists "", q; exact Hq | reflexivity].
    + split; [discriminate|]. intros (p & q & Hpq).
      destruct p; [|discriminate]. simpl in Hpq.
      assert (strings.HasPrefix "" substr = true) as Ht
        by (apply HasPrefix_spec; exists q; exact Hpq).
      congruence.
  - destruct (strings.HasPrefix (String a s) substr) eqn:Hp.
    + apply HasPrefix_spec in Hp as [q Hq].
      split; [intros _; exists "", q; exact Hq | reflexivity].
    + rewrite IH. split; intros (p & q & Hpq).
      * exists (String a p), q. simpl. now rewrite Hpq.
      * destruct p as [|a' p]; simpl in Hpq.
        -- assert (strings.HasPrefix (String a s) substr = true) as Ht
             by (apply HasPrefix_spec; exists q; exact Hpq).
           congruence.
        -- inversion Hpq; subst. now exists p, q.
Qed.

Example Contains_grpc_proto :
  strings.Contains "application/grpc+proto" "application/grpc" = true.
Proof. reflexivity. Qed.

Example Contains_json :
  strings.Contains "application/json" "application/grpc" = false.
Proof. reflexivity. Qed.

Example CanonicalMIMEHeaderKey_trace :
  textproto.CanonicalMIMEHeaderKey TraceContextHeaderName = "Uber-Trace-Id".
Proof. reflexivity. Qed.

Example CanonicalMIMEHeaderKey_not_a_token :
  textproto.CanonicalMIMEHeaderKey "content type" = "content type".
Proof. reflexivity. Qed.

(** ** The event counters *)

Lemma count_app (p : Event -> bool) (l1 l2 : list Event) :
  count p (l1 ++ l2) = (count p l1 + count p l2)%nat.
Proof. unfold count. now rewrite filter_app, length_app. Qed.

Lemma count_nil (p : Event -> bool) : count p [] = 0%nat.
Proof. reflexivity. Qed.

Lemma count_cons (p : Event -> bool) (e : Event) (l : list Event) :
  count p (e :: l) = ((if p e then 1 else 0) + count p l)%nat.
Proof.
  unfold count. rewrite filter_cons.
  destruct (p e); destruct (decide _); simpl; congruence.
Qed.

(** Counting over a list given by its events. *)
Ltac count_events :=
  rewrite ?count_app, ?count_cons, ?count_nil; cbn; try lia.

(** ** The protocol multiplexer *)

(** Membership of a serve event in an explicit event list, against a
    proposition [H] that is known to hold or known to fail. *)
Ltac served_by H :=
  split; intros ?;
  first [ exact H
        | contradiction
        | solve [cbn; auto 10]
        | exfalso; cbn in *; intuition discriminate ].

Example native_request_goes_to_the_server :
  events (snd (grpcHandlerFunc exampleTracer exampleTraceID_String
                 (backend NativeRPC) (backend Gateway) exampleNativeRequest World0))
  = [EvLog InfoLevel "match grpc call"; EvServeHTTP NativeRPC].
Proof. vm_compute. reflexivity. Qed.

Example json_request_goes_to_the_gateway :
  events (snd (grpcHandlerFunc exampleTracer exampleTraceID_String
                 (backend NativeRPC) (backend Gateway) exampleJSONRequest World0))
  = [EvLog InfoLevel "match http web call";
     EvStartSpan {| span_id := 0;
                    span_operation := "ServeHTTP";
                    span_options := [RPCServerOption None; grpcGatewayTag];
                    span_Context := JaegerSpanContext {| High := 0; Low := 170 |} 0 |};
     EvServeHTTP Gateway;
     EvFinishSpan 0].
Proof. vm_compute. reflexivity. Qed.

(** The classification of [grpcHandlerFunc], as a boolean. *)
Lemma native_condition (r : Request) :
  (ProtoMajor r =? 2)%Z
  && strings.Contains (http.Get (Header r) "Content-Type") "application/grpc" = true
  <-> ProtoMajor r = 2
      /\ exists p q, http.Get (Header r) "Content-Type" = p +:+ "application/grpc" +:+ q.
Proof.
  rewrite andb_true_iff, Z.eqb_eq, Contains_spec. reflexivity.
Qed.

(** C1. Every request is served by exactly one of the two backends: by the
    native RPC server if and only if its protocol major version is 2 and
    its [Content-Type] contains ["application/grpc"], by the gateway if
    and only if not.  The backend that is not chosen has no influence on
    what happens. *)
Theorem C1_multiplexer_routes_to_exactly_one_backend :
  forall (tracer : Tracer) (TraceID_String : TraceID -> string) (r : Request) (w : World),
    let native :=
      ProtoMajor r = 2
      /\ exists p q, http.Get (Header r) "Content-Type" = p +:+ "application/grpc" +:+ q in
    (exists new,
        events (snd (grpcHandlerFunc tracer TraceID_String
                       (backend NativeRPC) (backend Gateway) r w)) = events w ++ new
        /\ count isServe new = 1%nat
        /\ (In (EvServeHTTP NativeRPC) new <-> native)
        /\ (In (EvServeHTTP Gateway) new <-> ~ native))
    /\ (native ->
        forall grpcServer other other',
          grpcHandlerFunc tracer TraceID_String grpcServer other r w
          = grpcHandlerFunc tracer TraceID_String grpcServer other' r w
          /\ grpcHandlerFunc tracer TraceID_String grpcServer other r w
             = (zaplog.Info "match grpc call" ;;; grpcServer r) w)
    /\ (~ native ->
        forall grpcServer grpcServer' other,
          grpcHandlerFunc tracer TraceID_String grpcServer other r w
          = grpcHandlerFunc tracer TraceID_String grpcServer' other r w).
Proof.
  intros tracer tid r w native.
  pose proof (native_condition r) as Hc. fold native in Hc.
  unfold grpcHandlerFunc, h2c_NewHandler.
  destruct ((ProtoMajor r =? 2)%Z
            && strings.Contains (http.Get (Header r) "Content-Type") "application/grpc")
    eqn:Hb.
  - assert (native) as Hn by (apply Hc; reflexivity).
    split; [|split].
    + exists [EvLog InfoLevel "match grpc call"; EvServeHTTP NativeRPC].
      cbn. rewrite <- app_assoc. split; [reflexivity|]. split; [reflexivity|].
      split; served_by Hn.
    + intros _ g o o'. split; reflexivity.
    + intros Hnn. contradiction.
  - assert (~ native) as Hn by (rewrite <- Hc; discriminate).
    split; [|split].
    + destruct (Extract tracer (Header r)) as [parent err].
      destruct (bool_decide (err = None) || bool_decide (err = Some ErrSpanContextNotFound)).
      * destruct (newSpanContext tracer (next_span w) "ServeHTTP"
                    [RPCServerOption parent; grpcGatewayTag]) eqn:Hsc;
          (eexists; split;
           [cbn; rewrite Hsc; cbn; rewrite <- ?app_assoc; reflexivity|]);
          (split; [reflexivity|]); split; served_by Hn.
      * exists [EvLog InfoLevel "match http web call"; EvServeHTTP Gateway].
        cbn. rewrite <- app_assoc. split; [reflexivity|]. split; [reflexivity|].
        split; served_by Hn.
    + intros Hnn. contradiction.
    + intros _ g g' o. reflexivity.
Qed.

(** ** The validation stage *)

(** C2 (as amended). When the request has the validation capability and
    [ValidateAll] fails, the handler is not invoked and the call ends with
    the validator's own error, unchanged; that error is of the
    invalid-argument kind exactly when the validator made it a status
    error of that code. *)
Theorem C2_failed_validation_short_circuits :
  forall (Req Resp : Type) (asValidator : Req -> option Validator)
         (ctx : Context) (req : Req) (info : UnaryServerInfo)
         (handler : UnaryHandler Req Resp) (w : World) (v : Validator) (err : Err),
    asValidator req = Some v ->
    ValidateAll v = Some err ->
    ServerValidationUnaryInterceptor asValidator ctx req info handler w
    = (Return (None, Some err),
       {| events := events w ++ [EvLog InfoLevel "%+v";
                                 EvLog ErrorLevel "req validate error %v"];
          next_span := next_span w;
          resp_header := resp_header w |})
    /\ count isInvoke
         (events (snd (ServerValidationUnaryInterceptor asValidator ctx req info
                         (observed handler) w)))
       = count isInvoke (events w)
    /\ (status.wireCode err = codes.InvalidArgument
        <-> exists msg, err = StatusError codes.InvalidArgument msg).
Proof.
  intros Req Resp asValidator ctx req info handler w v err Hv He.
  unfold ServerValidationUnaryInterceptor. rewrite Hv, He.
  split; [|split].
  - cbn. now rewrite <- app_assoc.
  - cbn. count_events.
  - split.
    + destruct err; cbn; try discriminate. intros ->. now eexists.
    + intros [msg ->]. reflexivity.
Qed.

Lemma C2_failed_validation_witness :
  ServerValidationUnaryInterceptor exampleValidator Background {| Name := "Ada" |}
    {| FullMethod := Greeter_SayHello_FullMethodName |}
    (fun ctx req => server_SayHello NewServer ctx req) World0
  = (Return (None, Some (PlainError
       "invalid HelloRequest.Name: value length must be at least 6 runes")),
     {| events := [EvLog InfoLevel "%+v"; EvLog ErrorLevel "req validate error %v"];
        next_span := 0;
        resp_header := ∅ |}).
Proof.
  exact (proj1 (C2_failed_validation_short_circuits HelloRequest HelloReply
                  exampleValidator Background {| Name := "Ada" |}
                  {| FullMethod := Greeter_SayHello_FullMethodName |}
                  (fun ctx req => server_SayHello NewServer ctx req) World0
                  {| ValidateAll := Some (PlainError
                       "invalid HelloRequest.Name: value length must be at least 6 runes") |}
                  _ eq_refl eq_refl)).
Defined.

(** C2 as stated fails: a validator that answers a plain error makes the
    call end with that error, whose kind is unknown, not invalid
    argument. *)
Lemma C2_counterexample_plain_error_is_not_invalid_argument :
  exists err,
    fst (ServerValidationUnaryInterceptor exampleValidator Background {| Name := "Ada" |}
           {| FullMethod := Greeter_SayHello_FullMethodName |}
           (observed (fun ctx req => server_SayHello NewServer ctx req)) World0)
    = Return (None, Some err)
    /\ status.wireCode err = codes.Unknown
    /\ status.Code (Some err) = codes.Unknown
    /\ status.wireCode err <> codes.InvalidArgument.
Proof.
  eexists. split; [reflexivity|]. repeat split; discriminate.
Qed.

(** C3. When the request lacks the validation capability the stage only
    logs and runs the handler, with the same context and request, and
    returns what the handler returns: the handler is invoked exactly once
    and no error is added. *)
Theorem C3_no_capability_runs_the_handler :
  forall (Req Resp : Type) (asValidator : Req -> option Validator)
         (ctx : Context) (req : Req) (info : UnaryServerInfo)
         (handler : UnaryHandler Req Resp) (w : World),
    asValidator req = None ->
    ServerValidationUnaryInterceptor asValidator ctx req info handler w
    = handler ctx req (snd (zaplog.Infof "%+v" w))
    /\ forall res : Result Resp,
        let run := ServerValidationUnaryInterceptor asValidator ctx req info
                     (observed (fun _ _ => ret res)) w in
        fst run = Return res
        /\ count isInvoke (events (snd run)) = S (count isInvoke (events w)).
Proof.
  intros Req Resp asValidator ctx req info handler w Hv.
  unfold ServerValidationUnaryInterceptor. rewrite Hv.
  split; [reflexivity|].
  intros res. cbn. split; [reflexivity|]. count_events.
Qed.

Lemma C3_no_capability_witness :
  ServerValidationUnaryInterceptor noValidator Background mkEmpty
    {| FullMethod := Greeter_Logout_FullMethodName |}
    (fun ctx req => server_Logout NewServer ctx req) World0
  = server_Logout NewServer Background mkEmpty (snd (zaplog.Infof "%+v" World0)).
Proof.
  exact (proj1 (C3_no_capability_runs_the_handler Empty Empty noValidator Background
                  mkEmpty {| FullMethod := Greeter_Logout_FullMethodName |}
                  (fun ctx req => server_Logout NewServer ctx req) World0 eq_refl)).
Defined.

(** ** The stages of the chain, by their events *)

Lemma quiet_counts (l : list Event) :
  Forall (fun e => isStageEvent e = false) l ->
  count isStart l = 0%nat /\ count isFinish l = 0%nat
  /\ count (isLog "%+v") l = 0%nat
  /\ forall id, count (isFinishOf id) l = 0%nat.
Proof.
  induction 1 as [|e l He _ (IH1 & IH2 & IH3 & IH4)].
  - repeat split.
  - unfold isStageEvent in He. apply orb_false_iff in He as [He He3].
    apply orb_false_iff in He as [He1 He2].
    rewrite !count_cons, He1, He2, He3, IH1, IH2, IH3.
    repeat split. intros id. rewrite count_cons, IH4.
    destruct e; try reflexivity. discriminate.
Qed.

(** The trace stage of the server starts a span, runs the inner handler
    with the span in its context, and finishes the span after it. *)
Lemma trace_stage_events {Req Resp : Type} (t : Tracer)
    (ctx : Context) (req : Req) (info : UnaryServerInfo)
    (inner : UnaryHandler Req Resp) (w : World) :
  let opts := [RPCServerOption (match Extract t (ctx_md ctx) with
                                | (Some sc, None) => Some sc
                                | _ => None
                                end); Tag "component" "gRPC"] in
  let sp := {| span_id := next_span w;
               span_operation := FullMethod info;
               span_options := opts;
               span_Context := newSpanContext t (next_span w) (FullMethod info) opts |} in
  let w1 := {| events := events w ++ [EvStartSpan sp];
               next_span := S (next_span w);
               resp_header := resp_header w |} in
  let run := grpc_opentracing_UnaryServerInterceptor t ctx req info inner w in
  let inner_run := inner (ContextWithSpan ctx sp) req w1 in
  exists tail,
    events (snd run) = events (snd inner_run) ++ tail ++ [EvFinishSpan (next_span w)]
    /\ fst run = fst inner_run
    /\ Forall (fun e => isStageEvent e = false) tail.
Proof.
  intros opts sp w1 run inner_run.
  assert (run = defer (Finish sp)
                  (res <- inner (ContextWithSpan ctx sp) req ;;
                   match snd res with
                   | Some _ => emit (EvSetTag (span_id sp) "error")
                   | None => ret tt
                   end ;;;
                   ret res) w1) as -> by reflexivity.
  subst inner_run. unfold defer, bind.
  destruct (inner (ContextWithSpan ctx sp) req w1) as [[res|v] w2].
  - destruct (snd res) as [e|].
    + exists [EvSetTag (span_id sp) "error"]. cbn.
      rewrite <- !app_assoc. repeat split; auto.
    + exists []. cbn. repeat split; auto.
  - exists []. cbn. repeat split; auto.
Qed.

(** The same for the trace stage of the client. *)
Lemma client_stage_events {Req Resp : Type} (t : Tracer)
    (ctx : Context) (method : string) (req : Req)
    (invoker : UnaryInvoker Req Resp) (w : World) :
  let opts := [RPCClientOption (option_map span_Context (ctx_span ctx));
               Tag "component" "gRPC"] in
  let sp := {| span_id := next_span w;
               span_operation := method;
               span_options := opts;
               span_Context := newSpanContext t (next_span w) method opts |} in
  let w1 := {| events := events w ++ [EvStartSpan sp];
               next_span := S (next_span w);
               resp_header := resp_header w |} in
  let ctx1 := {| ctx_span := Some sp;
                 ctx_md := Inject t (span_Context sp) (ctx_md ctx) |} in
  let run := grpc_opentracing_UnaryClientInterceptor t ctx method req invoker w in
  let inner_run := invoker ctx1 method req w1 in
  exists tail,
    events (snd run) = events (snd inner_run) ++ tail ++ [EvFinishSpan (next_span w)]
    /\ fst run = fst inner_run
    /\ Forall (fun e => isStageEvent e = false) tail.
Proof.
  intros opts sp w1 ctx1 run inner_run.
  assert (run = defer (Finish sp)
                  (res <- invoker ctx1 method req ;;
                   match snd res with
                   | Some _ => emit (EvSetTag (span_id sp) "error")
                   | None => ret tt
                   end ;;;
                   ret res) w1) as -> by reflexivity.
  subst inner_run. unfold defer, bind.
  destruct (invoker ctx1 method req w1) as [[res|v] w2].
  - destruct (snd res) as [e|].
    + exists [EvSetTag (span_id sp) "error"]. cbn.
      rewrite <- !app_assoc. repeat split; auto.
    + exists []. cbn. repeat split; auto.
  - exists []. cbn. repeat split; auto.
Qed.

(** The validation stage logs its entry, then either rejects or runs the
    handler. *)
Lemma validation_stage_events {Req Resp : Type} (asValidator : Req -> option Validator)
    (ctx : Context) (req : Req) (info : UnaryServerInfo)
    (handler : UnaryHandler Req Resp) (w : World) :
  quiet handler ->
  exists mid,
    events (snd (ServerValidationUnaryInterceptor asValidator ctx req info handler w))
    = events w ++ EvLog InfoLevel "%+v" :: mid
    /\ Forall (fun e => isStageEvent e = false) mid.
Proof.
  intros Hq. unfold ServerValidationUnaryInterceptor.
  set (w1 := snd (zaplog.Infof "%+v" w)).
  assert (forall k : M (Result Resp),
             (zaplog.Infof "%+v" ;;; k) w = k w1) as Hk by reflexivity.
  rewrite Hk.
  assert (events w1 = events w ++ [EvLog InfoLevel "%+v"]) as Hw1 by reflexivity.
  destruct (Hq ctx req w1) as (new & Hnew & Hall).
  destruct (asValidator req) as [v|].
  - destruct (ValidateAll v) as [err|].
    + exists [EvLog ErrorLevel "req validate error %v"]. cbn.
      rewrite <- app_assoc. split; [reflexivity|]. repeat constructor.
    + exists new. rewrite Hnew, Hw1, <- app_assoc. split; [reflexivity | exact Hall].
  - exists new. rewrite Hnew, Hw1, <- app_assoc. split; [reflexivity | exact Hall].
Qed.

(** The validation stage lets a request through when the request lacks
    the capability or its [ValidateAll] answers [nil]. *)
Lemma validation_stage_accepts {Req Resp : Type} (asValidator : Req -> option Validator)
    (ctx : Context) (req : Req) (info : UnaryServerInfo)
    (handler : UnaryHandler Req Resp) (w : World) :
  accepted asValidator req ->
  ServerValidationUnaryInterceptor asValidator ctx req info handler w
  = handler ctx req (logged InfoLevel "%+v" w).
Proof.
  unfold accepted, ServerValidationUnaryInterceptor.
  destruct (asValidator req) as [v|]; [intros ->|intros _]; reflexivity.
Qed.

(** The span the server starts for a call that arrives in world [w]. *)
Lemma serveUnary_unfold {Req Resp : Type} (t : Tracer)
    (asValidator : Req -> option Validator) (method : string)
    (handler : UnaryHandler Req Resp) (ctx : Context) (req : Req) (w : World) :
  serveUnary t asValidator method handler ctx req w
  = grpc_opentracing_UnaryServerInterceptor t ctx req {| FullMethod := method |}
      (fun ctx1 req1 =>
         ServerValidationUnaryInterceptor asValidator ctx1 req1
           {| FullMethod := method |} handler) w.
Proof. reflexivity. Qed.

(** A call served by the server: the span is started first and finished
    last, and the validation stage and the handler lie in between. *)
Lemma serveUnary_events {Req Resp : Type} (t : Tracer)
    (asValidator : Req -> option Validator) (method : string)
    (handler : UnaryHandler Req Resp) (ctx : Context) (req : Req) (w : World) :
  quiet handler ->
  exists mid,
    events (snd (serveUnary t asValidator method handler ctx req w))
    = events w ++ EvStartSpan (serverSpanOf t method ctx w)
                  :: EvLog InfoLevel "%+v" :: mid
                  ++ [EvFinishSpan (next_span w)]
    /\ Forall (fun e => isStageEvent e = false) mid.
Proof.
  intros Hq. rewrite serveUnary_unfold.
  set (info := {| FullMethod := method |}).
  set (inner := fun ctx0 req0 =>
                  ServerValidationUnaryInterceptor asValidator ctx0 req0 info handler).
  destruct (trace_stage_events t ctx req info inner w) as (tail & Hev & _ & Htail).
  cbv zeta in Hev. rewrite Hev. unfold inner at 1.
  match goal with
  | |- context [ServerValidationUnaryInterceptor asValidator ?c req info handler ?x] =>
      destruct (validation_stage_events asValidator c req info handler x Hq)
        as (mid & -> & Hall)
  end.
  exists (mid ++ tail). split.
  - cbn [events]. unfold serverSpanOf. cbn [FullMethod].
    repeat first [rewrite <- app_assoc | rewrite <- app_comm_cons]. reflexivity.
  - apply Forall_app. split; assumption.
Qed.

Lemma defer_Finish_events {A : Type} (sp : Span) (m : M A) (w : World) :
  events (snd (defer (Finish sp) m w)) = events (snd (m w)) ++ [EvFinishSpan (span_id sp)]
  /\ fst (defer (Finish sp) m w) = fst (m w).
Proof.
  unfold defer. destruct (m w) as [[a|v] w1]; cbn; split; reflexivity.
Qed.


(** The handlers of the service are quiet. *)
Lemma server_SayHello_quiet (s : server) :
  quiet (fun ctx req => server_SayHello s ctx req).
Proof.
  intros ctx req w. exists [EvLog InfoLevel "register name is %d"].
  split; [reflexivity | repeat constructor].
Qed.

Lemma server_Logout_quiet (s : server) :
  quiet (fun ctx req => server_Logout s ctx req).
Proof.
  intros ctx req w. exists []. split; [cbn; now rewrite app_nil_r | constructor].
Qed.

Lemma server_GetUser_quiet (s : server) :
  quiet (fun ctx req => GetUser (server_GreeterServer s) ctx req).
Proof.
  intros ctx req w. exists []. split; [cbn; now rewrite app_nil_r | constructor].
Qed.

Lemma observed_quiet {Req Resp : Type} (handler : UnaryHandler Req Resp) :
  quiet handler -> quiet (observed handler).
Proof.
  intros Hq ctx req w. unfold observed.
  destruct (Hq ctx req (snd (emit EvInvoke w))) as (new & Hnew & Hall).
  exists (EvInvoke :: new). split.
  - change ((emit EvInvoke ;;; handler ctx req) w)
      with (handler ctx req (snd (emit EvInvoke w))).
    rewrite Hnew. cbn. now rewrite <- app_assoc.
  - constructor; [reflexivity | exact Hall].
Qed.

Lemma backend_quiet (b : Backend) : quietHandler (backend b).
Proof.
  intros r w. exists [EvServeHTTP b]. split; [reflexivity | repeat constructor].
Qed.

(** ** The three ways through the front door *)

Lemma grpcHandlerFunc_native (tracer : Tracer) (TraceID_String : TraceID -> string)
    (grpcServer other : Handler) (r : Request) (w : World) :
  (ProtoMajor r =? 2)%Z
  && strings.Contains (http.Get (Header r) "Content-Type") "application/grpc" = true ->
  grpcHandlerFunc tracer TraceID_String grpcServer other r w
  = grpcServer r (logged InfoLevel "match grpc call" w).
Proof.
  intros Hc. unfold grpcHandlerFunc, h2c_NewHandler. rewrite Hc. reflexivity.
Qed.

Lemma grpcHandlerFunc_gateway_no_span (tracer : Tracer)
    (TraceID_String : TraceID -> string)
    (grpcServer other : Handler) (r : Request) (w : World) :
  (ProtoMajor r =? 2)%Z
  && strings.Contains (http.Get (Header r) "Content-Type") "application/grpc" = false ->
  bool_decide (snd (Extract tracer (Header r)) = None)
  || bool_decide (snd (Extract tracer (Header r)) = Some ErrSpanContextNotFound) = false ->
  grpcHandlerFunc tracer TraceID_String grpcServer other r w
  = other r (logged InfoLevel "match http web call" w).
Proof.
  intros Hc He. unfold grpcHandlerFunc, h2c_NewHandler. rewrite Hc.
  destruct (Extract tracer (Header r)) as [parent err]. cbn [snd] in He.
  unfold bind at 1. cbn [zaplog.Info emit]. rewrite He. reflexivity.
Qed.

Lemma grpcHandlerFunc_gateway_span (tracer : Tracer)
    (TraceID_String : TraceID -> string)
    (grpcServer other : Handler) (r : Request) (w : World) :
  (ProtoMajor r =? 2)%Z
  && strings.Contains (http.Get (Header r) "Content-Type") "application/grpc" = false ->
  bool_decide (snd (Extract tracer (Header r)) = None)
  || bool_decide (snd (Extract tracer (Header r)) = Some ErrSpanContextNotFound) = true ->
  let opts := [RPCServerOption (fst (Extract tracer (Header r))); grpcGatewayTag] in
  let sp := {| span_id := next_span w;
               span_operation := "ServeHTTP";
               span_options := opts;
               span_Context := newSpanContext tracer (next_span w) "ServeHTTP" opts |} in
  let w2 := {| events := events w ++ [EvLog InfoLevel "match http web call";
                                      EvStartSpan sp];
               next_span := S (next_span w);
               resp_header :=
                 match span_Context sp with
                 | JaegerSpanContext traceID _ =>
                     http.Set_ (resp_header w) TraceContextHeaderName
                       (TraceID_String traceID)
                 | ForeignSpanContext _ => resp_header w
                 end |} in
  grpcHandlerFunc tracer TraceID_String grpcServer other r w
  = defer (Finish sp) (other (WithContext r (ContextWithSpan (r_Context r) sp))) w2.
Proof.
  intros Hc He opts sp w2. unfold grpcHandlerFunc, h2c_NewHandler. rewrite Hc.
  subst w2 sp opts.
  destruct (Extract tracer (Header r)) as [parent err]. cbn [fst snd] in *.
  unfold bind at 1. cbn [zaplog.Info emit]. rewrite He.
  unfold bind at 1. cbn [StartSpan]. unfold bind at 1.
  cbn [span_Context next_span events resp_header].
  destruct (newSpanContext tracer (next_span w) "ServeHTTP"
              [RPCServerOption parent; grpcGatewayTag]);
    cbn; rewrite <- app_assoc; reflexivity.
Qed.

(** ** The trace spans *)




(** C8. The server runs the trace stage around the validation stage
    around the handler: the span is started before anything else, the
    validation stage and the handler run with that span in their context,
    and the span is finished after them. *)
Theorem C8_trace_wraps_validation_wraps_handler :
  forall (tracer : Tracer) (Req Resp : Type) (asValidator : Req -> option Validator)
         (method : string) (handler : UnaryHandler Req Resp)
         (ctx : Context) (req : Req) (w : World),
    quiet handler ->
    let info := {| FullMethod := method |} in
    let sp := serverSpanOf tracer method ctx w in
    serveUnary tracer asValidator method handler ctx req w
    = grpc_opentracing_UnaryServerInterceptor tracer ctx req info
        (fun ctx1 req1 =>
           ServerValidationUnaryInterceptor asValidator ctx1 req1 info
             (fun _ req2 => handler (ContextWithSpan ctx sp) req2)) w
    /\ exists rest,
        events (snd (serveUnary tracer asValidator method (observed handler) ctx req w))
        = events w ++ EvStartSpan sp :: EvLog InfoLevel "%+v" :: rest
                   ++ [EvFinishSpan (span_id sp)]
        /\ Forall (fun e => isStageEvent e = false) rest
        /\ count isInvoke rest
           = (count isInvoke
                (events (snd (serveUnary tracer asValidator method (observed handler)
                                ctx req w)))
              - count isInvoke (events w))%nat.
Proof.
  intros tracer Req Resp asValidator method handler ctx req w Hq info sp.
  split; [reflexivity|].
  destruct (serveUnary_events tracer asValidator method (observed handler) ctx req w
              (observed_quiet handler Hq)) as (rest & Hev & Hall).
  exists rest. split; [exact Hev|]. split; [exact Hall|].
  rewrite Hev.
  repeat first [rewrite count_cons | rewrite count_app | rewrite count_nil].
  cbn. lia.
Qed.

Lemma C8_trace_wraps_witness :
  exists rest,
    events (snd (serveUnary exampleTracer exampleValidator Greeter_SayHello_FullMethodName
                   (observed (fun ctx req => server_SayHello NewServer ctx req))
                   Background {| Name := "Ada_Lovelace" |} World0))
    = events World0
      ++ EvStartSpan (serverSpanOf exampleTracer Greeter_SayHello_FullMethodName
                        Background World0)
         :: EvLog InfoLevel "%+v" :: rest ++ [EvFinishSpan 0]
    /\ Forall (fun e => isStageEvent e = false) rest
    /\ count isInvoke rest
       = (count isInvoke
            (events (snd (serveUnary exampleTracer exampleValidator
                            Greeter_SayHello_FullMethodName
                            (observed (fun ctx req => server_SayHello NewServer ctx req))
                            Background {| Name := "Ada_Lovelace" |} World0)))
          - count isInvoke (events World0))%nat.
Proof.
  exact (proj2 (C8_trace_wraps_validation_wraps_handler exampleTracer
                  HelloRequest HelloReply exampleValidator Greeter_SayHello_FullMethodName
                  (fun ctx req => server_SayHello NewServer ctx req)
                  Background {| Name := "Ada_Lovelace" |} World0
                  (server_SayHello_quiet NewServer))).
Defined.




(** ** The gateway branch of the front door *)

Lemma Get_Set (h : gmap string (list string)) (key value : string) :
  http.Get (http.Set_ h key value) key = value.
Proof.
  unfold http.Get, http.Set_. now rewrite lookup_insert_eq.
Qed.

(** C5 (as amended). In the gateway branch a failed extraction never
    keeps the request from being served.  When no parent context is found
    the front door starts a fresh span, whose parent reference is the
    empty context the extraction returned, and serves the request under
    it; on any other extraction error it starts no span at all and serves
    the request as it came. *)
Theorem C5_extraction_failure_is_not_fatal :
  forall (tracer : Tracer) (TraceID_String : TraceID -> string)
         (grpcServer other : Handler) (r : Request) (w : World),
    (ProtoMajor r =? 2)%Z
    && strings.Contains (http.Get (Header r) "Content-Type") "application/grpc" = false ->
    (snd (Extract tracer (Header r)) = Some ErrSpanContextNotFound ->
     exists sp w2,
       span_options sp = [RPCServerOption (fst (Extract tracer (Header r))); grpcGatewayTag]
       /\ events w2 = events w ++ [EvLog InfoLevel "match http web call"; EvStartSpan sp]
       /\ grpcHandlerFunc tracer TraceID_String grpcServer other r w
          = defer (Finish sp)
              (other (WithContext r (ContextWithSpan (r_Context r) sp))) w2)
    /\ (forall e : Err,
           snd (Extract tracer (Header r)) = Some e ->
           e <> ErrSpanContextNotFound ->
           grpcHandlerFunc tracer TraceID_String grpcServer other r w
           = other r (logged InfoLevel "match http web call" w)).
Proof.
  intros tracer tid g o r w Hc. split.
  - intros He.
    pose proof (grpcHandlerFunc_gateway_span tracer tid g o r w Hc) as Heq.
    rewrite He in Heq. specialize (Heq eq_refl). cbv zeta in Heq.
    eexists. eexists. split; [|split; [|exact Heq]]; reflexivity.
  - intros e He Hne.
    apply grpcHandlerFunc_gateway_no_span; [exact Hc|].
    rewrite He. cbn. rewrite bool_decide_eq_false_2; [reflexivity | congruence].
Qed.

Lemma C5_extraction_failure_witness :
  grpcHandlerFunc exampleTracer exampleTraceID_String
    (backend NativeRPC) (backend Gateway) exampleCorruptedRequest World0
  = backend Gateway exampleCorruptedRequest (logged InfoLevel "match http web call" World0).
Proof.
  refine (proj2 (C5_extraction_failure_is_not_fatal exampleTracer exampleTraceID_String
                   (backend NativeRPC) (backend Gateway) exampleCorruptedRequest World0 _)
            ErrSpanContextCorrupted _ _).
  - vm_compute. reflexivity.
  - vm_compute. reflexivity.
  - discriminate.
Defined.

(** C5 as stated fails: for a parent context that is present but cannot
    be parsed the front door serves the request without starting any
    span. *)
Lemma C5_counterexample_unparsable_parent_starts_no_span :
  snd (Extract exampleTracer (Header exampleCorruptedRequest)) = Some ErrSpanContextCorrupted
  /\ count isStart
       (events (snd (grpcHandlerFunc exampleTracer exampleTraceID_String
                       (backend NativeRPC) (backend Gateway)
                       exampleCorruptedRequest World0))) = 0%nat
  /\ count (isServeOf Gateway)
       (events (snd (grpcHandlerFunc exampleTracer exampleTraceID_String
                       (backend NativeRPC) (backend Gateway)
                       exampleCorruptedRequest World0))) = 1%nat.
Proof.
  vm_compute. repeat split.
Qed.

(** C9. In the gateway branch, when a span was started and its context is
    a Jaeger context, as with the tracer [main] installs, the response
    header [uber-trace-id] is set to the trace identifier of the span
    before the gateway serves the request; when no span was started the
    front door leaves the response headers as they were. *)
Theorem C9_trace_identifier_header :
  forall (tracer : Tracer) (TraceID_String : TraceID -> string)
         (grpcServer other : Handler) (r : Request) (w : World),
    (ProtoMajor r =? 2)%Z
    && strings.Contains (http.Get (Header r) "Content-Type") "application/grpc" = false ->
    (bool_decide (snd (Extract tracer (Header r)) = None)
     || bool_decide (snd (Extract tracer (Header r)) = Some ErrSpanContextNotFound) = true ->
     forall (traceID : TraceID) (spanID : Z),
       newSpanContext tracer (next_span w) "ServeHTTP"
         [RPCServerOption (fst (Extract tracer (Header r))); grpcGatewayTag]
       = JaegerSpanContext traceID spanID ->
       (exists sp w2,
           span_Context sp = JaegerSpanContext traceID spanID
           /\ grpcHandlerFunc tracer TraceID_String grpcServer other r w
              = defer (Finish sp)
                  (other (WithContext r (ContextWithSpan (r_Context r) sp))) w2
           /\ resp_header w2
              = http.Set_ (resp_header w) TraceContextHeaderName (TraceID_String traceID)
           /\ http.Get (resp_header w2) TraceContextHeaderName = TraceID_String traceID)
       /\ http.Get
            (resp_header (snd (grpcHandlerFunc tracer TraceID_String grpcServer
                                 (backend Gateway) r w)))
            TraceContextHeaderName
          = TraceID_String traceID)
    /\ (bool_decide (snd (Extract tracer (Header r)) = None)
        || bool_decide (snd (Extract tracer (Header r)) = Some ErrSpanContextNotFound) = false ->
        grpcHandlerFunc tracer TraceID_String grpcServer other r w
        = other r (logged InfoLevel "match http web call" w)
        /\ resp_header (logged InfoLevel "match http web call" w) = resp_header w
        /\ resp_header (snd (grpcHandlerFunc tracer TraceID_String grpcServer
                               (backend Gateway) r w))
           = resp_header w).
Proof.
  intros tracer tid g o r w Hc. split.
  - intros He traceID spanID Hsc. split.
    + pose proof (grpcHandlerFunc_gateway_span tracer tid g o r w Hc He) as Heq.
      cbv zeta in Heq. eexists. eexists.
      split; [|split; [exact Heq|]].
      * cbn. exact Hsc.
      * cbn [resp_header span_Context]. rewrite Hsc.
        split; [reflexivity | apply Get_Set].
    + pose proof (grpcHandlerFunc_gateway_span tracer tid g (backend Gateway) r w Hc He)
        as Heq.
      cbv zeta in Heq. rewrite Heq. cbn. rewrite Hsc. apply Get_Set.
  - intros He. split; [|split].
    + apply grpcHandlerFunc_gateway_no_span; assumption.
    + reflexivity.
    + rewrite grpcHandlerFunc_gateway_no_span by assumption. reflexivity.
Qed.

Lemma C9_trace_identifier_header_witness :
  http.Get
    (resp_header (snd (grpcHandlerFunc exampleTracer exampleTraceID_String
                         (backend NativeRPC) (backend Gateway) exampleJSONRequest World0)))
    TraceContextHeaderName
  = "00000000000000aa".
Proof.
  refine (proj2 (proj1 (C9_trace_identifier_header exampleTracer exampleTraceID_String
                          (backend NativeRPC) (backend Gateway) exampleJSONRequest World0 _)
                   _ {| High := 0; Low := 170 |} 0 _)).
  - vm_compute. reflexivity.
  - vm_compute. reflexivity.
  - reflexivity.
Defined.

(** ** The methods of the service *)

Lemma serveUnary_result {Req Resp : Type} (t : Tracer)
    (asValidator : Req -> option Validator) (method : string)
    (handler : UnaryHandler Req Resp) (ctx : Context) (req : Req) (w : World) :
  accepted asValidator req ->
  exists ctx1 w1,
    fst (serveUnary t asValidator method handler ctx req w) = fst (handler ctx1 req w1).
Proof.
  intros Hacc. rewrite serveUnary_unfold.
  match goal with
  | |- context [grpc_opentracing_UnaryServerInterceptor t ctx req ?i ?h w] =>
      destruct (trace_stage_events t ctx req i h w) as (tail & _ & Hres & _)
  end.
  cbv zeta in Hres. rewrite Hres.
  rewrite validation_stage_accepts by exact Hacc.
  eexists. eexists. reflexivity.
Qed.

Lemma gatewayInvoke_result {Req Resp : Type} (t : Tracer)
    (asValidator : Req -> option Validator) (method : string)
    (handler : UnaryHandler Req Resp) (ctx : Context) (req : Req) (w : World) :
  accepted asValidator req ->
  exists ctx1 w1,
    fst (gatewayInvoke t asValidator method handler ctx req w) = fst (handler ctx1 req w1).
Proof.
  intros Hacc. unfold gatewayInvoke, dialInterceptor.
  match goal with
  | |- context [grpc_opentracing_UnaryClientInterceptor t ctx method req ?i w] =>
      destruct (client_stage_events t ctx method req i w) as (tail & _ & Hres & _)
  end.
  cbv zeta in Hres. rewrite Hres.
  apply serveUnary_result. exact Hacc.
Qed.

(** C6. [SayHello] answers the name followed by [" world"], with no
    structured payload and no error, for every name, so ["Ada world"] for
    ["Ada"]; a call that the validation stage lets through gets this
    reply both when it is served directly and when it comes through the
    gateway. *)
Theorem C6_SayHello_appends_world :
  forall (s : server) (ctx : Context) (name : string) (w : World),
    let reply := {| Message := name +:+ " world"; Data := None; Obj := None |} in
    server_SayHello s ctx {| Name := name |} w
    = (Return (Some reply, None), logged InfoLevel "register name is %d" w)
    /\ fst (SayHello (server_GreeterServer s) ctx {| Name := "Ada" |} w)
       = Return (Some {| Message := "Ada world"; Data := None; Obj := None |}, None)
    /\ forall (tracer : Tracer) (asValidator : HelloRequest -> option Validator),
        accepted asValidator {| Name := name |} ->
        fst (serveUnary tracer asValidator Greeter_SayHello_FullMethodName
               (fun ctx1 req => SayHello (server_GreeterServer s) ctx1 req)
               ctx {| Name := name |} w)
        = Return (Some reply, None)
        /\ fst (gatewayInvoke tracer asValidator Greeter_SayHello_FullMethodName
                  (fun ctx1 req => SayHello (server_GreeterServer s) ctx1 req)
                  ctx {| Name := name |} w)
           = Return (Some reply, None).
Proof.
  intros s ctx name w reply. split; [reflexivity|]. split; [reflexivity|].
  intros tracer asValidator Hacc. split.
  - destruct (serveUnary_result tracer asValidator Greeter_SayHello_FullMethodName
                (fun ctx1 req => SayHello (server_GreeterServer s) ctx1 req)
                ctx {| Name := name |} w Hacc) as (ctx1 & w1 & ->).
    reflexivity.
  - destruct (gatewayInvoke_result tracer asValidator Greeter_SayHello_FullMethodName
                (fun ctx1 req => SayHello (server_GreeterServer s) ctx1 req)
                ctx {| Name := name |} w Hacc) as (ctx1 & w1 & ->).
    reflexivity.
Qed.

Lemma C6_SayHello_witness :
  fst (serveUnary exampleTracer noValidator Greeter_SayHello_FullMethodName
         (fun ctx1 req => SayHello (server_GreeterServer NewServer) ctx1 req)
         Background {| Name := "Ada" |} World0)
  = Return (Some {| Message := "Ada world"; Data := None; Obj := None |}, None)
  /\ fst (gatewayInvoke exampleTracer noValidator Greeter_SayHello_FullMethodName
            (fun ctx1 req => SayHello (server_GreeterServer NewServer) ctx1 req)
            Background {| Name := "Ada" |} World0)
     = Return (Some {| Message := "Ada world"; Data := None; Obj := None |}, None).
Proof.
  exact (proj2 (proj2 (C6_SayHello_appends_world NewServer Background "Ada" World0))
           exampleTracer noValidator I).
Defined.

(** C10. [GetUser] of the registered server is the method promoted from
    [UnimplementedGreeterServer]: for every request it answers no
    response and a status error of code [Unimplemented], and so does the
    generated handler, without an interceptor and with the interceptor of
    the server for a request the validation stage lets through. *)
Theorem C10_GetUser_is_unimplemented :
  forall (s : server) (ctx : Context) (req : UserReq) (w : World),
    let err := StatusError codes.Unimplemented "method GetUser not implemented" in
    GetUser (server_GreeterServer s) ctx req w = (Return (None, Some err), w)
    /\ status.Code (Some err) = codes.Unimplemented
    /\ status.wireCode err = codes.Unimplemented
    /\ _Greeter_GetUser_Handler (server_GreeterServer s) ctx (fun _ => (req, None)) None w
       = (Return (None, Some err), w)
    /\ forall (tracer : Tracer) (asValidator : UserReq -> option Validator),
        accepted asValidator req ->
        fst (_Greeter_GetUser_Handler (server_GreeterServer s) ctx (fun _ => (req, None))
               (Some (serverInterceptor tracer asValidator)) w)
        = Return (None, Some err).
Proof.
  intros s ctx req w err. repeat (split; [reflexivity|]).
  intros tracer asValidator Hacc.
  change (_Greeter_GetUser_Handler (server_GreeterServer s) ctx (fun _ => (req, None))
            (Some (serverInterceptor tracer asValidator)) w)
    with (serveUnary tracer asValidator Greeter_GetUser_FullMethodName
            (fun ctx1 req1 => GetUser (server_GreeterServer s) ctx1 req1) ctx req w).
  destruct (serveUnary_result tracer asValidator Greeter_GetUser_FullMethodName
              (fun ctx1 req1 => GetUser (server_GreeterServer s) ctx1 req1)
              ctx req w Hacc) as (ctx1 & w1 & ->).
  reflexivity.
Qed.

Lemma C10_GetUser_witness :
  fst (_Greeter_GetUser_Handler (server_GreeterServer NewServer) Background
         (fun _ => ({| Id := 42 |}, None))
         (Some (serverInterceptor exampleTracer noValidator)) World0)
  = Return (None, Some (StatusError codes.Unimplemented "method GetUser not implemented")).
Proof.
  exact (proj2 (proj2 (proj2 (proj2
           (C10_GetUser_is_unimplemented NewServer Background {| Id := 42 |} World0))))
           exampleTracer noValidator I).
Defined.

(** * Further properties *)

(** ** The validation stage and the generated handlers *)

(** X1. When the request has the validation capability and [ValidateAll]
    answers [nil], the stage logs its entry and runs the handler with the
    same context and request; the handler is invoked exactly once and its
    result is returned as it is. *)
Theorem X1_passed_validation_runs_the_handler :
  forall (Req Resp : Type) (asValidator : Req -> option Validator)
         (ctx : Context) (req : Req) (info : UnaryServerInfo)
         (handler : UnaryHandler Req Resp) (w : World) (v : Validator),
    asValidator req = Some v ->
    ValidateAll v = None ->
    ServerValidationUnaryInterceptor asValidator ctx req info handler w
    = handler ctx req (logged InfoLevel "%+v" w)
    /\ forall res : Result Resp,
        let run := ServerValidationUnaryInterceptor asValidator ctx req info
                     (observed (fun _ _ => ret res)) w in
        fst run = Return res
        /\ count isInvoke (events (snd run)) = S (count isInvoke (events w))
        /\ count (isLog "req validate error %v") (events (snd run))
           = count (isLog "req validate error %v") (events w).
Proof.
  intros Req Resp asValidator ctx req info handler w v Hv Hnil.
  unfold ServerValidationUnaryInterceptor. rewrite Hv, Hnil.
  split; [reflexivity|].
  intros res. cbn. split; [reflexivity|]. split; count_events.
Qed.

Lemma X1_passed_validation_witness :
  ServerValidationUnaryInterceptor exampleValidator Background {| Name := "Ada_Lovelace" |}
    {| FullMethod := Greeter_SayHello_FullMethodName |}
    (fun ctx req => server_SayHello NewServer ctx req) World0
  = server_SayHello NewServer Background {| Name := "Ada_Lovelace" |}
      (logged InfoLevel "%+v" World0).
Proof.
  exact (proj1 (X1_passed_validation_runs_the_handler HelloRequest HelloReply
                  exampleValidator Background {| Name := "Ada_Lovelace" |}
                  {| FullMethod := Greeter_SayHello_FullMethodName |}
                  (fun ctx req => server_SayHello NewServer ctx req) World0
                  {| ValidateAll := None |} eq_refl eq_refl)).
Defined.

(** X2. When the decoder fails, each generated method handler answers no
    response and the decoder's error, and runs neither the interceptor
    nor the method: the world is unchanged, whatever server and
    interceptor it was given. *)
Theorem X2_decode_error_short_circuits :
  forall (srv : GreeterServer) (ctx : Context) (e : Err) (w : World),
    (forall (dec : HelloRequest -> HelloRequest * error) interceptor,
        snd (dec {| Name := "" |}) = Some e ->
        _Greeter_SayHello_Handler srv ctx dec interceptor w = (Return (None, Some e), w))
    /\ (forall (dec : Empty -> Empty * error) interceptor,
          snd (dec mkEmpty) = Some e ->
          _Greeter_Logout_Handler srv ctx dec interceptor w = (Return (None, Some e), w))
    /\ (forall (dec : UserReq -> UserReq * error) interceptor,
          snd (dec {| Id := 0 |}) = Some e ->
          _Greeter_GetUser_Handler srv ctx dec interceptor w = (Return (None, Some e), w)).
Proof.
  intros srv ctx e w. repeat split; intros dec interceptor He.
  - unfold _Greeter_SayHello_Handler. destruct (dec _) as [m err]. cbn in He. now subst.
  - unfold _Greeter_Logout_Handler. destruct (dec _) as [m err]. cbn in He. now subst.
  - unfold _Greeter_GetUser_Handler. destruct (dec _) as [m err]. cbn in He. now subst.
Qed.

Lemma X2_decode_error_witness :
  _Greeter_SayHello_Handler (server_GreeterServer NewServer) Background
    (fun m => (m, Some (PlainError "proto: cannot parse invalid wire-format data")))
    (Some (ServerValidationUnaryInterceptor exampleValidator)) World0
  = (Return (None, Some (PlainError "proto: cannot parse invalid wire-format data")), World0).
Proof.
  exact (proj1 (X2_decode_error_short_circuits (server_GreeterServer NewServer) Background
                  (PlainError "proto: cannot parse invalid wire-format data") World0)
           (fun m => (m, Some (PlainError "proto: cannot parse invalid wire-format data")))
           (Some (ServerValidationUnaryInterceptor exampleValidator)) eq_refl).
Defined.

(** X3. A generated method handler given an interceptor that only runs
    the handler, or the chain of no interceptors, does exactly what it
    does without an interceptor: the handler it builds is the method of
    the server on the decoded request. *)
Theorem X3_handler_of_the_interceptor_is_the_method :
  forall (srv : GreeterServer) (ctx : Context) (w : World),
    (forall dec,
        _Greeter_SayHello_Handler srv ctx dec (Some passThrough) w
        = _Greeter_SayHello_Handler srv ctx dec None w
        /\ _Greeter_SayHello_Handler srv ctx dec (Some (ChainUnaryInterceptor [])) w
           = _Greeter_SayHello_Handler srv ctx dec None w)
    /\ (forall dec,
          _Greeter_Logout_Handler srv ctx dec (Some passThrough) w
          = _Greeter_Logout_Handler srv ctx dec None w
          /\ _Greeter_Logout_Handler srv ctx dec (Some (ChainUnaryInterceptor [])) w
             = _Greeter_Logout_Handler srv ctx dec None w)
    /\ (forall dec,
          _Greeter_GetUser_Handler srv ctx dec (Some passThrough) w
          = _Greeter_GetUser_Handler srv ctx dec None w
          /\ _Greeter_GetUser_Handler srv ctx dec (Some (ChainUnaryInterceptor [])) w
             = _Greeter_GetUser_Handler srv ctx dec None w).
Proof.
  intros srv ctx w. repeat split;
    match goal with
    | |- _ = ?h _ _ ?dec None _ => unfold h; destruct (dec _) as [m [e|]]
    end; reflexivity.
Qed.

(** X4. Where the errors of a served call come from.  [SayHello] and
    [Logout] of the server never fail and never panic, so behind the
    validation interceptor a call of either ends normally, with a
    response and no error, or with no response and an error that is the
    decoder's or the validator's. *)
Theorem X4_errors_come_from_decoding_or_validation :
  forall (s : server) (ctx : Context) (w : World),
    (forall (dec : HelloRequest -> HelloRequest * error)
            (asValidator : HelloRequest -> option Validator),
        let in_ := fst (dec {| Name := "" |}) in
        exists res w',
          _Greeter_SayHello_Handler (server_GreeterServer s) ctx dec
            (Some (ServerValidationUnaryInterceptor asValidator)) w = (Return res, w')
          /\ (snd res = None ->
              fst res = Some {| Message := Name in_ +:+ " world";
                                Data := None; Obj := None |})
          /\ (forall e, snd res = Some e ->
                fst res = None
                /\ (snd (dec {| Name := "" |}) = Some e
                    \/ exists v, asValidator in_ = Some v /\ ValidateAll v = Some e)))
    /\ (forall (dec : Empty -> Empty * error) (asValidator : Empty -> option Validator),
          let in_ := fst (dec mkEmpty) in
          exists res w',
            _Greeter_Logout_Handler (server_GreeterServer s) ctx dec
              (Some (ServerValidationUnaryInterceptor asValidator)) w = (Return res, w')
            /\ (snd res = None -> fst res = Some mkEmpty)
            /\ (forall e, snd res = Some e ->
                  fst res = None
                  /\ (snd (dec mkEmpty) = Some e
                      \/ exists v, asValidator in_ = Some v /\ ValidateAll v = Some e))).
Proof.
  intros s ctx w. split; intros dec asValidator in_; subst in_.
  - unfold _Greeter_SayHello_Handler, ServerValidationUnaryInterceptor.
    destruct (dec _) as [m [e|]]; cbn [fst snd].
    + eexists. eexists. split; [reflexivity|]. cbn. split; [discriminate|].
      intros e' [= <-]. auto.
    + destruct (asValidator m) as [v|] eqn:Hv; [destruct (ValidateAll v) as [e|] eqn:He|].
      * eexists. eexists. split; [reflexivity|]. cbn. split; [discriminate|].
        intros e' [= <-]. split; [reflexivity|]. right. eauto.
      * eexists. eexists. split; [reflexivity|]. cbn. split; [reflexivity|discriminate].
      * eexists. eexists. split; [reflexivity|]. cbn. split; [reflexivity|discriminate].
  - unfold _Greeter_Logout_Handler, ServerValidationUnaryInterceptor.
    destruct (dec _) as [m [e|]]; cbn [fst snd].
    + eexists. eexists. split; [reflexivity|]. cbn. split; [discriminate|].
      intros e' [= <-]. auto.
    + destruct (asValidator m) as [v|] eqn:Hv; [destruct (ValidateAll v) as [e|] eqn:He|].
      * eexists. eexists. split; [reflexivity|]. cbn. split; [discriminate|].
        intros e' [= <-]. split; [reflexivity|]. right. eauto.
      * eexists. eexists. split; [reflexivity|]. cbn. split; [reflexivity|discriminate].
      * eexists. eexists. split; [reflexivity|]. cbn. split; [reflexivity|discriminate].
Qed.

(** ** More on the front door *)

Lemma isNative_native (tracer : Tracer) (TraceID_String : TraceID -> string)
    (r : Request) (w : World) :
  isNative r = true ->
  events (snd (grpcHandlerFunc tracer TraceID_String
                 (backend NativeRPC) (backend Gateway) r w))
  = events w ++ [EvLog InfoLevel "match grpc call"; EvServeHTTP NativeRPC].
Proof.
  intros Hn. rewrite grpcHandlerFunc_native by exact Hn.
  cbn. now rewrite <- app_assoc.
Qed.

Lemma isNative_gateway (tracer : Tracer) (TraceID_String : TraceID -> string)
    (r : Request) (w : World) :
  isNative r = false ->
  exists spans,
    events (snd (grpcHandlerFunc tracer TraceID_String
                   (backend NativeRPC) (backend Gateway) r w))
    = events w ++ EvLog InfoLevel "match http web call" :: fst spans
               ++ EvServeHTTP Gateway :: snd spans
    /\ (spans = ([], [])
        \/ exists sp, spans = ([EvStartSpan sp], [EvFinishSpan (span_id sp)])).
Proof.
  intros Hn.
  destruct (bool_decide (snd (Extract tracer (Header r)) = None)
            || bool_decide (snd (Extract tracer (Header r)) = Some ErrSpanContextNotFound))
    eqn:He.
  - pose proof (grpcHandlerFunc_gateway_span tracer TraceID_String (backend NativeRPC)
                  (backend Gateway) r w Hn He) as Heq.
    cbv zeta in Heq. rewrite Heq.
    rewrite (proj1 (defer_Finish_events _ _ _)).
    match goal with
    | |- context [EvFinishSpan (span_id ?s)] =>
        exists ([EvStartSpan s], [EvFinishSpan (span_id s)])
    end.
    split; [|right; eexists; reflexivity].
    cbn. repeat first [rewrite <- app_assoc | rewrite <- app_comm_cons]. reflexivity.
  - rewrite grpcHandlerFunc_gateway_no_span by assumption.
    exists ([], []). split; [|left; reflexivity].
    cbn. now rewrite <- app_assoc.
Qed.

(** X5. A panic of the gateway handler does not leak the span of the
    front door: the deferred [Finish] still runs, once, and the panic
    goes on to the caller with its value. *)
Theorem X5_span_is_finished_when_the_gateway_panics :
  forall (tracer : Tracer) (TraceID_String : TraceID -> string)
         (grpcServer other : Handler) (r : Request) (w : World),
    isNative r = false ->
    bool_decide (snd (Extract tracer (Header r)) = None)
    || bool_decide (snd (Extract tracer (Header r)) = Some ErrSpanContextNotFound) = true ->
    forall (v : string),
      (forall r1 w1, exists new,
          other r1 w1 = (Panicked v,
                         {| events := events w1 ++ new;
                            next_span := next_span w1;
                            resp_header := resp_header w1 |})
          /\ Forall (fun e => isStageEvent e = false) new) ->
      exists new,
        fst (grpcHandlerFunc tracer TraceID_String grpcServer other r w) = Panicked v
        /\ events (snd (grpcHandlerFunc tracer TraceID_String grpcServer other r w))
           = events w ++ new ++ [EvFinishSpan (next_span w)]
        /\ count isStart (new ++ [EvFinishSpan (next_span w)]) = 1%nat
        /\ count isFinish (new ++ [EvFinishSpan (next_span w)]) = 1%nat.
Proof.
  intros tracer tid g o r w Hn He v Hp.
  pose proof (grpcHandlerFunc_gateway_span tracer tid g o r w Hn He) as Heq.
  cbv zeta in Heq. rewrite Heq. unfold defer.
  match goal with
  | |- context [o ?r1 ?w1] => destruct (Hp r1 w1) as (new & -> & Hall)
  end.
  apply quiet_counts in Hall as (H1 & H2 & _).
  match goal with
  | |- context [EvStartSpan ?s] =>
      exists (EvLog InfoLevel "match http web call" :: EvStartSpan s :: new)
  end.
  split; [reflexivity|]. split.
  - cbn. repeat first [rewrite <- app_assoc | rewrite <- app_comm_cons]. reflexivity.
  - repeat first [rewrite count_cons | rewrite count_app | rewrite count_nil].
    rewrite H1, H2. cbn. split; lia.
Qed.

Lemma X5_span_is_finished_witness :
  exists new,
    fst (grpcHandlerFunc exampleTracer exampleTraceID_String
           (backend NativeRPC) (panicking "runtime error") exampleJSONRequest World0)
    = Panicked "runtime error"
    /\ events (snd (grpcHandlerFunc exampleTracer exampleTraceID_String
                      (backend NativeRPC) (panicking "runtime error")
                      exampleJSONRequest World0))
       = events World0 ++ new ++ [EvFinishSpan (next_span World0)]
    /\ count isStart (new ++ [EvFinishSpan (next_span World0)]) = 1%nat
    /\ count isFinish (new ++ [EvFinishSpan (next_span World0)]) = 1%nat.
Proof.
  refine (X5_span_is_finished_when_the_gateway_panics exampleTracer exampleTraceID_String
            (backend NativeRPC) (panicking "runtime error") exampleJSONRequest World0
            _ _ "runtime error" _).
  - vm_compute. reflexivity.
  - vm_compute. reflexivity.
  - intros r1 w1. exists []. split; [|constructor].
    unfold panicking. rewrite app_nil_r. destruct w1; reflexivity.
Defined.

(** X6. The classification reads the protocol version and the first
    value of [Content-Type] only.  A request without the header, or with
    an empty list of values, goes to the gateway, also over HTTP/2; a
    request with several values is classified by the first one. *)
Theorem X6_only_the_first_content_type_counts :
  forall (tracer : Tracer) (TraceID_String : TraceID -> string) (r : Request) (w : World),
    let run := grpcHandlerFunc tracer TraceID_String
                 (backend NativeRPC) (backend Gateway) r w in
    ((Header r !! "Content-Type" = None \/ Header r !! "Content-Type" = Some []) ->
     exists new,
       events (snd run) = events w ++ new
       /\ count (isServeOf Gateway) new = 1%nat
       /\ count (isServeOf NativeRPC) new = 0%nat)
    /\ (forall (v : string) (others : list string),
           Header r !! "Content-Type" = Some (v :: others) ->
           isNative r = ((ProtoMajor r =? 2)%Z && strings.Contains v "application/grpc")
           /\ exists new,
               events (snd run) = events w ++ new
               /\ count (isServeOf NativeRPC) new
                  = (if (ProtoMajor r =? 2)%Z && strings.Contains v "application/grpc"
                     then 1 else 0)%nat
               /\ count (isServeOf Gateway) new
                  = (if (ProtoMajor r =? 2)%Z && strings.Contains v "application/grpc"
                     then 0 else 1)%nat).
Proof.
  intros tracer tid r w run. subst run.
  assert (forall b, isNative r = b ->
            exists new,
              events (snd (grpcHandlerFunc tracer tid (backend NativeRPC)
                             (backend Gateway) r w)) = events w ++ new
              /\ count (isServeOf NativeRPC) new = (if b then 1 else 0)%nat
              /\ count (isServeOf Gateway) new = (if b then 0 else 1)%nat) as Hroute.
  { intros [|] Hb.
    - rewrite (isNative_native tracer tid r w Hb). eexists. split; [reflexivity|].
      split; reflexivity.
    - destruct (isNative_gateway tracer tid r w Hb) as (spans & -> & Hs).
      eexists. split; [reflexivity|].
      destruct Hs as [->|[sp ->]]; split; reflexivity. }
  split.
  - intros Hmiss.
    assert (isNative r = false) as Hb.
    { unfold isNative, http.Get.
      change (textproto.CanonicalMIMEHeaderKey "Content-Type") with "Content-Type".
      destruct Hmiss as [-> | ->]; apply andb_false_r. }
    destruct (Hroute false Hb) as (new & Hev & Hn & Hg). eauto.
  - intros v others Hv.
    assert (isNative r
            = ((ProtoMajor r =? 2)%Z && strings.Contains v "application/grpc")) as Hb.
    { unfold isNative, http.Get.
      change (textproto.CanonicalMIMEHeaderKey "Content-Type") with "Content-Type".
      now rewrite Hv. }
    split; [exact Hb|]. exact (Hroute _ Hb).
Qed.

(** X7. The front door writes one log line of its own for a request, and
    writes it first: ["match grpc call"] when it hands the request to the
    native server, ["match http web call"] when it hands it to the
    gateway. *)
Theorem X7_one_diagnostic_line_names_the_branch :
  forall (tracer : Tracer) (TraceID_String : TraceID -> string) (r : Request) (w : World),
    exists rest,
      events (snd (grpcHandlerFunc tracer TraceID_String
                     (backend NativeRPC) (backend Gateway) r w))
      = events w
        ++ EvLog InfoLevel (if isNative r then "match grpc call" else "match http web call")
        :: rest
      /\ count isAnyLog rest = 0%nat
      /\ count (isServeOf (if isNative r then NativeRPC else Gateway)) rest = 1%nat.
Proof.
  intros tracer tid r w. destruct (isNative r) eqn:Hb.
  - rewrite (isNative_native tracer tid r w Hb). eexists. split; [reflexivity|].
    split; reflexivity.
  - destruct (isNative_gateway tracer tid r w Hb) as (spans & -> & Hs).
    eexists. split; [reflexivity|].
    destruct Hs as [->|[sp ->]]; split; reflexivity.
Qed.

(** ** The user use case and the client *)

(** X8. [GetUser] of the use case never answers a user together with an
    error.  When the store fails it answers no user and the store's
    error, dropping whatever user the store gave, and logs one error
    line; when the store succeeds it answers the store's user and logs
    nothing. *)
Theorem X8_use_case_GetUser_propagates_the_store_error :
  forall (User : Type) (u : logic.userUseCaseImpl (User := User))
         (ctx : Context) (id : Z) (w : World)
         (user : option User) (err : error) (w1 : World),
    logic.UserStore_GetUser (logic.Registry_UserStore (logic.store u) ctx) ctx id w
    = (Return (user, err), w1) ->
    exists res w2,
      logic.GetUser u ctx id w = (Return res, w2)
      /\ snd res = err
      /\ (fst res = None \/ snd res = None)
      /\ (err = None -> fst res = user /\ w2 = w1)
      /\ (err <> None ->
          fst res = None
          /\ w2 = logged ErrorLevel "logic: get user detail err: %v" w1).
Proof.
  intros User u ctx id w user err w1 Hs.
  unfold logic.GetUser, bind. rewrite Hs. cbn [snd fst].
  destruct err as [e|].
  - eexists. eexists. split; [reflexivity|]. cbn.
    repeat split; auto; discriminate.
  - eexists. eexists. split; [reflexivity|]. cbn.
    repeat split; auto; congruence.
Qed.

Lemma X8_use_case_GetUser_witness :
  exists res w2,
    logic.GetUser
      (logic.NewUserUseCase
         {| logic.Registry_UserStore := fun _ =>
              {| logic.UserStore_GetUser := fun _ _ =>
                   ret (Some "stale", Some (PlainError "record not found")) |} |})
      Background 42 World0 = (Return res, w2)
    /\ snd res = Some (PlainError "record not found")
    /\ (fst res = None \/ snd res = None)
    /\ (Some (PlainError "record not found") = None ->
        fst res = Some "stale" /\ w2 = World0)
    /\ (Some (PlainError "record not found") <> None ->
        fst res = None
        /\ w2 = logged ErrorLevel "logic: get user detail err: %v" World0).
Proof.
  exact (X8_use_case_GetUser_propagates_the_store_error string
           (logic.NewUserUseCase
              {| logic.Registry_UserStore := fun _ =>
                   {| logic.UserStore_GetUser := fun _ _ =>
                        ret (Some "stale", Some (PlainError "record not found")) |} |})
           Background 42 World0 (Some "stale") (Some (PlainError "record not found"))
           World0 eq_refl).
Defined.

(** X9. The methods of the client answer a reply exactly when [Invoke]
    answered no error: then the reply is the message [Invoke] filled,
    never [nil]; otherwise the reply is [nil] and the error is the one of
    [Invoke].  Each method invokes its own full method name, once. *)
Theorem X9_client_answers_a_reply_or_an_error :
  forall (c : greeterClient) (ctx : Context) (w : World),
    (forall in_ out err w1,
        Invoke (cc c) HelloRequest HelloReply ctx Greeter_SayHello_FullMethodName in_
          {| Message := ""; Data := None; Obj := None |} w = (Return (out, err), w1) ->
        greeterClient_SayHello c ctx in_ w
        = (Return (match err with Some _ => None | None => Some out end, err), w1))
    /\ (forall in_ out err w1,
          Invoke (cc c) Empty Empty ctx Greeter_Logout_FullMethodName in_ mkEmpty w
          = (Return (out, err), w1) ->
          greeterClient_Logout c ctx in_ w
          = (Return (match err with Some _ => None | None => Some out end, err), w1))
    /\ (forall in_ out err w1,
          Invoke (cc c) UserReq UserRes ctx Greeter_GetUser_FullMethodName in_
            {| UserRes_Id := 0; UserRes_Name := ""; UserRes_Email := "";
               UserRes_Phone := "" |} w = (Return (out, err), w1) ->
          greeterClient_GetUser c ctx in_ w
          = (Return (match err with Some _ => None | None => Some out end, err), w1)).
Proof.
  intros c ctx w. repeat split; intros in_ out err w1 Hi.
  - unfold greeterClient_SayHello, bind. rewrite Hi. destruct err; reflexivity.
  - unfold greeterClient_Logout, bind. rewrite Hi. destruct err; reflexivity.
  - unfold greeterClient_GetUser, bind. rewrite Hi. destruct err; reflexivity.
Qed.

(** ** The start of the process *)

Lemma main_cases (env : process.Env) :
  let r := process.run (process.main env) in
  (exists code, process.flag_Parse env = inr code
     /\ r = (process.Exits code, [process.FlagParse]))
  \/ (exists path e, process.flag_Parse env = inl path
        /\ process.config_Load env path = Some e
        /\ r = (process.Panics e, [process.FlagParse; process.ConfigLoad path]))
  \/ (exists path e, process.flag_Parse env = inl path
        /\ process.config_Load env path = None
        /\ process.NewTracer_error env = Some e
        /\ r = (process.Panics e,
                [process.FlagParse; process.ConfigLoad path; process.ZaplogInit;
                 process.LogInfo "server is running"; process.NewTracer;
                 process.ZaplogSync]))
  \/ (exists path e, process.flag_Parse env = inl path
        /\ process.config_Load env path = None
        /\ process.NewTracer_error env = None
        /\ process.Listen_error env = Some e
        /\ r = (process.Exits 1,
                [process.FlagParse; process.ConfigLoad path; process.ZaplogInit;
                 process.LogInfo "server is running"; process.NewTracer;
                 process.SetGlobalTracer; process.Listen ":8091"; process.Fatalln]))
  \/ (exists path e, process.flag_Parse env = inl path
        /\ process.config_Load env path = None
        /\ process.NewTracer_error env = None
        /\ process.Listen_error env = None
        /\ process.Register_error env = Some e
        /\ r = (process.Exits 1,
                [process.FlagParse; process.ConfigLoad path; process.ZaplogInit;
                 process.LogInfo "server is running"; process.NewTracer;
                 process.SetGlobalTracer; process.Listen ":8091"; process.NewServer;
                 process.RegisterGreeterServer; process.NewGatewayMux;
                 process.RegisterGreeterHandlerFromEndpoint "127.0.0.1:8091";
                 process.Fatalln]))
  \/ (exists path, process.flag_Parse env = inl path
        /\ process.config_Load env path = None
        /\ process.NewTracer_error env = None
        /\ process.Listen_error env = None
        /\ process.Register_error env = None
        /\ exists ending,
            r = (fst ending,
                 [process.FlagParse; process.ConfigLoad path; process.ZaplogInit;
                  process.LogInfo "server is running"; process.NewTracer;
                  process.SetGlobalTracer; process.Listen ":8091"; process.NewServer;
                  process.RegisterGreeterServer; process.NewGatewayMux;
                  process.RegisterGreeterHandlerFromEndpoint "127.0.0.1:8091";
                  process.MuxHandle "/";
                  process.Println "Serving on http://127.0.0.1:8091";
                  process.Serve "127.0.0.1:8091"] ++ snd ending)
            /\ (ending = (process.Serving, [])
                \/ ending = (process.Exits 1, [process.Fatalln]))).
Proof.
  intros r. subst r. unfold process.run, process.main.
  destruct (process.flag_Parse env) as [path|code] eqn:Hf.
  2:{ left. exists code. split; reflexivity. }
  right. cbn.
  destruct (process.config_Load env path) as [e|] eqn:Hc.
  { left. exists path, e. repeat split; first [assumption | reflexivity]. }
  right. cbn.
  destruct (process.NewTracer_error env) as [e|] eqn:Ht.
  { left. exists path, e. repeat split; first [assumption | reflexivity]. }
  right. cbn.
  destruct (process.Listen_error env) as [e|] eqn:Hl.
  { left. exists path, e. repeat split; first [assumption | reflexivity]. }
  right. cbn.
  destruct (process.Register_error env) as [e|] eqn:Hr.
  { left. exists path, e. repeat split; first [assumption | reflexivity]. }
  right. cbn. exists path. repeat split; try first [assumption | reflexivity].
  destruct (process.Serve_error env) as [e|].
  - exists (process.Exits 1, [process.Fatalln]). split; [reflexivity | right; reflexivity].
  - exists (process.Serving, []). split; [reflexivity | left; reflexivity].
Qed.

(** X10. In no run of [main] is the closer of the tracer closed, although
    its [Close] is deferred: after the tracer is made [main] ends only by
    [log.Fatalln], which exits without running deferred calls, or never
    ends.  The deferred [zaplog.Sync] runs in one case only, when the
    tracer cannot be made and [main] panics.  [main] never returns. *)
Theorem X10_deferred_calls_of_main :
  forall (env : process.Env),
    let r := process.run (process.main env) in
    ~ In process.CloserClose (snd r)
    /\ (In process.ZaplogSync (snd r)
        <-> exists path e,
            process.flag_Parse env = inl path
            /\ process.config_Load env path = None
            /\ process.NewTracer_error env = Some e)
    /\ fst r <> process.Returned
    /\ fst r <> process.Running.
Proof.
  intros env r. subst r.
  destruct (main_cases env) as
    [(code & Hf & ->)
    |[(path & e & Hf & Hc & ->)
     |[(path & e & Hf & Hc & Ht & ->)
      |[(path & e & Hf & Hc & Ht & Hl & ->)
       |[(path & e & Hf & Hc & Ht & Hl & Hr & ->)
        |(path & Hf & Hc & Ht & Hl & Hr & ending & -> & He)]]]]].
  - cbn. repeat split; try discriminate.
    + intros [H|[]]; discriminate.
    + intros [H|[]]; discriminate.
    + intros (p & e & Hp & _). congruence.
  - cbn. repeat split; try discriminate.
    + intuition discriminate.
    + intuition discriminate.
    + intros (p & e' & Hp & Hc' & _). congruence.
  - cbn. repeat split; try discriminate.
    + intuition discriminate.
    + intros _. eauto.
    + intros _. auto 10.
  - cbn. repeat split; try discriminate.
    + intuition discriminate.
    + intuition discriminate.
    + intros (p & e' & Hp & Hc' & Ht'). congruence.
  - cbn. repeat split; try discriminate.
    + intuition discriminate.
    + intuition discriminate.
    + intros (p & e' & Hp & Hc' & Ht'). congruence.
  - destruct He as [-> | ->]; cbn; repeat split; try discriminate.
    + intuition discriminate.
    + intuition discriminate.
    + intros (p & e' & Hp & Hc' & Ht'). congruence.
    + intuition discriminate.
    + intuition discriminate.
    + intros (p & e' & Hp & Hc' & Ht'). congruence.
Qed.

(** X11. [main] starts to serve if and only if the flags were parsed and
    the configuration, the tracer, the listener and the registration of
    the gateway all succeeded; before it serves it has registered the
    service and the gateway, in this order, and a failed listener or a
    failed registration ends the process with status 1 before anything
    is served. *)
Theorem X11_main_serves_only_after_every_start_up_step :
  forall (env : process.Env),
    let r := process.run (process.main env) in
    (In (process.Serve "127.0.0.1:8091") (snd r)
     <-> exists path,
         process.flag_Parse env = inl path
         /\ process.config_Load env path = None
         /\ process.NewTracer_error env = None
         /\ process.Listen_error env = None
         /\ process.Register_error env = None)
    /\ (In (process.Serve "127.0.0.1:8091") (snd r) ->
        exists before after,
          snd r = before ++ process.Serve "127.0.0.1:8091" :: after
          /\ In process.RegisterGreeterServer before
          /\ In (process.RegisterGreeterHandlerFromEndpoint "127.0.0.1:8091") before
          /\ In (process.Listen ":8091") before
          /\ (fst r = process.Serving \/ fst r = process.Exits 1))
    /\ (In process.Fatalln (snd r) -> fst r = process.Exits 1).
Proof.
  intros env r. subst r.
  destruct (main_cases env) as
    [(code & Hf & ->)
    |[(path & e & Hf & Hc & ->)
     |[(path & e & Hf & Hc & Ht & ->)
      |[(path & e & Hf & Hc & Ht & Hl & ->)
       |[(path & e & Hf & Hc & Ht & Hl & Hr & ->)
        |(path & Hf & Hc & Ht & Hl & Hr & ending & -> & He)]]]]].
  1-5: cbn; split; [split; [intuition discriminate
                           | intros (p & Hp & Hc' & Ht' & Hl' & Hr'); congruence]
                   | split; [intuition discriminate | intuition discriminate]].
  - split; [|split].
    + split; [intros _; eauto 10|]. intros _. cbn [snd].
      apply in_or_app. left. cbn. auto 20.
    + intros _. cbn [snd fst].
      exists [process.FlagParse; process.ConfigLoad path; process.ZaplogInit;
              process.LogInfo "server is running"; process.NewTracer;
              process.SetGlobalTracer; process.Listen ":8091"; process.NewServer;
              process.RegisterGreeterServer; process.NewGatewayMux;
              process.RegisterGreeterHandlerFromEndpoint "127.0.0.1:8091";
              process.MuxHandle "/";
              process.Println "Serving on http://127.0.0.1:8091"].
      exists (snd ending).
      split; [reflexivity|]. split; [cbn; auto 20|]. split; [cbn; auto 20|].
      split; [cbn; auto 20|].
      destruct He as [-> | ->]; cbn; auto.
    + destruct He as [-> | ->]; cbn [fst snd]; [|reflexivity].
      rewrite app_nil_r. cbn. intuition discriminate.
Qed.

Example main_serves_in_exampleEnv :
  process.run (process.main process.exampleEnv)
  = (process.Serving,
     [process.FlagParse; process.ConfigLoad "./"; process.ZaplogInit;
      process.LogInfo "server is running"; process.NewTracer;
      process.SetGlobalTracer; process.Listen ":8091"; process.NewServer;
      process.RegisterGreeterServer; process.NewGatewayMux;
      process.RegisterGreeterHandlerFromEndpoint "127.0.0.1:8091";
      process.MuxHandle "/"; process.Println "Serving on http://127.0.0.1:8091";
      process.Serve "127.0.0.1:8091"]).
Proof. reflexivity. Qed.

Example main_panics_without_tracer :
  process.run (process.main process.exampleEnvNoTracer)
  = (process.Panics (PlainError "no service name"),
     [process.FlagParse; process.ConfigLoad "./"; process.ZaplogInit;
      process.LogInfo "server is running"; process.NewTracer; process.ZaplogSync]).
Proof. reflexivity. Qed.

(** ** The swagger file handler *)

Lemma length_append (p q : string) :
  String.length (p +:+ q) = (String.length p + String.length q)%nat.
Proof. induction p as [|a p IH]; simpl; [reflexivity | now rewrite IH]. Qed.

Lemma append_assoc (p q r : string) : (p +:+ q) +:+ r = p +:+ (q +:+ r).
Proof.
  induction p as [|a p IH]; [reflexivity|].
  change (String a ((p +:+ q) +:+ r) = String a (p +:+ (q +:+ r))). now rewrite IH.
Qed.

Lemma drop_append (p q : string) : strings.drop (String.length p) (p +:+ q) = q.
Proof. induction p as [|a p IH]; simpl; [reflexivity | exact IH]. Qed.

Lemma drop_split (n : nat) (s : string) :
  (n <= String.length s)%nat ->
  exists p, s = p +:+ strings.drop n s /\ String.length p = n.
Proof.
  revert s. induction n as [|n IH]; intros s Hn.
  - exists "". split; reflexivity.
  - destruct s as [|a s]; simpl in Hn; [lia|].
    destruct (IH s ltac:(lia)) as (p & Hp & Hl).
    exists (String a p). split; [|simpl; now rewrite Hl].
    change (String a s = String a (p +:+ strings.drop n s)). now rewrite <- Hp.
Qed.

Lemma HasSuffix_spec (s suffix : string) :
  strings.HasSuffix s suffix = true <-> exists p, s = p +:+ suffix.
Proof.
  unfold strings.HasSuffix. rewrite andb_true_iff, Nat.leb_le, String.eqb_eq. split.
  - intros [Hle Hd].
    destruct (drop_split (String.length s - String.length suffix) s ltac:(lia))
      as (p & Hp & _).
    exists p. now rewrite Hd in Hp.
  - intros [p ->]. rewrite length_append. split; [lia|].
    replace (String.length p + String.length suffix - String.length suffix)%nat
      with (String.length p) by lia.
    apply drop_append.
Qed.

Lemma TrimPrefix_append (prefix q : string) :
  strings.TrimPrefix (prefix +:+ q) prefix = q.
Proof.
  unfold strings.TrimPrefix.
  assert (strings.HasPrefix (prefix +:+ q) prefix = true) as ->
      by (apply HasPrefix_spec; now exists q).
  apply drop_append.
Qed.

(** X12. [ServeSwaggerFile] answers not-found exactly for the paths that
    do not end in ["swagger.json"], and then serves no file; every other
    path is served a file, under the directory of the generated files.
    A path under ["/swagger/"] is served the file named by the rest of
    the path; a path that does not start with ["/swagger/"] is not
    refused: the whole path is joined to the directory.  Either way one
    line is logged. *)
Theorem X12_swagger_file_is_served_by_its_suffix :
  forall (path_Join : string -> string -> string) (urlPath : string),
    let answer := swagger.ServeSwaggerFile path_Join urlPath in
    (snd answer = swagger.NotFound <-> ~ exists p, urlPath = p +:+ "swagger.json")
    /\ ((exists p, urlPath = p +:+ "swagger.json") ->
        snd answer
        = swagger.ServeFile
            (path_Join "grpc/greeter/helloworld"
               (strings.TrimPrefix urlPath "/swagger/")))
    /\ (forall rest,
           urlPath = "/swagger/" +:+ rest +:+ "swagger.json" ->
           snd answer
           = swagger.ServeFile
               (path_Join "grpc/greeter/helloworld" (rest +:+ "swagger.json")))
    /\ (strings.HasPrefix urlPath "/swagger/" = false ->
        (exists p, urlPath = p +:+ "swagger.json") ->
        snd answer = swagger.ServeFile (path_Join "grpc/greeter/helloworld" urlPath))
    /\ length (fst answer) = 1%nat.
Proof.
  intros path_Join urlPath answer. subst answer. unfold swagger.ServeSwaggerFile.
  pose proof (HasSuffix_spec urlPath "swagger.json") as Hs.
  destruct (strings.HasSuffix urlPath "swagger.json"); cbn [negb snd fst].
  - assert (exists p, urlPath = p +:+ "swagger.json") as Hex by (apply Hs; reflexivity).
    split; [|split; [|split; [|split]]].
    + split; [discriminate | intros Hn; contradiction].
    + intros _. reflexivity.
    + intros rest ->. now rewrite TrimPrefix_append.
    + intros Hp _. unfold strings.TrimPrefix. now rewrite Hp.
    + reflexivity.
  - assert (~ exists p, urlPath = p +:+ "swagger.json") as Hex
        by (intros H; apply Hs in H; discriminate).
    split; [|split; [|split; [|split]]].
    + split; [intros _; exact Hex | reflexivity].
    + intros H; contradiction.
    + intros rest ->. exfalso. apply Hex. exists ("/swagger/" +:+ rest).
      symmetry. apply append_assoc.
    + intros _ H; contradiction.
    + reflexivity.
Qed.

Example swagger_served :
  swagger.ServeSwaggerFile (fun d p => d +:+ "/" +:+ p) "/swagger/hello_world.swagger.json"
  = (["Serving swagger-file: %s, %s"],
     swagger.ServeFile "grpc/greeter/helloworld/hello_world.swagger.json").
Proof. reflexivity. Qed.

Example swagger_not_found :
  swagger.ServeSwaggerFile (fun d p => d +:+ "/" +:+ p) "/swagger/index.html"
  = (["Not Found: %s"], swagger.NotFound).
Proof. reflexivity. Qed.
